(* ===== verification/_CoqProject ===== *)
-Q . S2P
Prelude.v
Bytes.v
Registry.v
World.v
Bootstrap.v
Server.v
Signature.v
Relay.v
RelayCorrect.v
RelayInvariant.v
Http.v
