(* ===== verification/Prelude.v ===== *)
(** * A verification development of the mock verifying paymaster

    The repository [pimlicolabs/mock-aa-environment] runs, next to a local
    Anvil chain and an Alto bundler, a small JSON-RPC service that sponsors
    ERC-4337 user operations: [src/mock-verifying-paymaster/src/index.ts].
    That file is the only source of the repository present under [src/];
    it holds the entry point [main] and the helper [verifyDeployed].  The
    modules it imports ([./relay], [./constants], [./singletonPaymasters],
    [./helpers/*]) are not under [src/]; the parts of them the entry point
    relies on are modelled from the specification ([spec.md]) and marked
    [spec_modelled] in the manifest.

    ** The program and how its parts interact

    [main] (index.ts 30-91) runs once, as an [async] function: it logs,
    reads [ANVIL_RPC]/[ALTO_RPC], gets the chain and the wallet of Anvil
    account 1, computes the three singleton paymaster addresses of that
    account (lines 52-56), asks the chain whether they carry code
    ([verifyDeployed], lines 15-28 and 58-62), deploys the paymasters and
    the ERC-20 token when one is missing (63-72), then registers the CORS
    plugin, the JSON-RPC handler [createRpcHandler(...)] on [POST /] and the
    liveness route [GET /ping] (74-88) and listens on port 3000 (90).
    Afterwards every HTTP request is dispatched by Fastify to those routes:
    the relay answers JSON-RPC requests by signing sponsorship claims that
    the on-chain paymaster checks.

    ** Files

    - [Prelude] (this file): the scope [pm_scope]; the promise monad
      [Async] (state passing with a rejection channel) with notations
      [let*] and [;;;], its laws and the [preserves] calculus for frame
      properties; the error monad [E + A] ([sbind], [or_error], [map_inl]);
      the hint databases [pm] and [pm_run]; shared tactics.
    - [Bytes]: bytes as [list Byte.byte]; fixed-width big-endian integers
      ([be_bytes]/[be_value]) with round trip and wrap-around
      ([be_bytes_wraps]); the lower-case [0x] spelling of the addresses
      and byte strings the relay writes, with their parse/print round trips.
    - [Registry]: entry-point versions, the CREATE2 address of each
      singleton paymaster ([getSingletonPaymasterAddress]), [addressFor],
      behind the class [Deployment] (Keccak-256 and creation codes), and
      viem's EIP-55 checksummed spelling [checksum_address], the form in
      which [main] logs addresses (lines 22, 41, 64).
    - [World]: the record [World] the [async] code threads (environment,
      node, chain code, the Fastify app, bound ports, an event trace) and
      the effects [console_log], [read_env], [getCode].
    - [Bootstrap]: [verifyDeployed] (an [afold] of [verifyDeployed_step])
      and the bootstrap branch [bootstrap] of [main], with the log lines
      as Node prints them ([not_deployed_message], [render_addresses] in
      [util.inspect]'s multi-line layout), against the class
      [Bootstrapper] for [deployPaymasters]/[deployErc20Token].
    - [Server]: the viem clients of lines 43-50 ([createPublicClient],
      [createBundlerClient], viem's [url || default] fallback in
      [http_transport]), [startup] (line 31 to 72, the fresh app of line
      32 included), [serve] (CORS, the route carrying the wallet the
      handler is built from, [/ping], [listen]), [main] and the process
      [run_main] that line 93 leaves, against the class [Helpers] for
      [getChain]/[getAnvilWalletClient].
    - [Signature]: the sponsorship claim, its per-version layout, the
      signature ([Signer] class) and the paymaster contract's decoder and
      check ([verifyPaymasterData]).
    - [Relay]: the JSON-RPC relay as a per-request state machine
      ([RequestState], [rpc_step], [rpc_run], [handleRpc]) and
      [createRpcHandler], which builds its state from the signer's address
      and key.
    - [RelayCorrect]: the relay on well-formed and ill-formed requests:
      each JSON-RPC error, the success response, end-to-end verification
      on chain, the window announced.
    - [RelayInvariant]: an invariant of [rpc_step] (a success carries the
      relay's own paymaster for its version and a claim built at the
      request time), so every answer is an error or such a success.
    - [Http]: Fastify's dispatch [handle_http] of a request to the app
      [main] leaves, composing the server with the relay.

    ** What the theorems show

    - the deployment check returns whether every address has code, queries
      all of them in order, and rejects when the node is down
      ([verifyDeployed_online], [verifyDeployed_offline]);
    - a resolved bootstrap leaves every paymaster deployed, and with all
      present it deploys nothing, not even the token ([bootstrap_deploys],
      [bootstrap_all_present]);
    - [main] serves only after the bootstrap, never listens when it
      rejects, and a second instance on the same host crashes at [listen]
      with the port in use ([main_serves_after_bootstrap],
      [main_rejected_not_listening], [second_instance_crashes]);
    - the clients post to [ANVIL_RPC]/[ALTO_RPC], and an unset or empty
      variable silently falls back to the chain's default RPC
      ([startup_clients]);
    - after [main], [/ping] answers pong, [POST /] answers exactly the
      response of the relay built from the wallet of Anvil account 1, and
      the paymaster any successful response names carries code
      ([ping_after_main], [rpc_after_main], [served_paymaster_deployed]);
    - the relay terminates in five transitions, echoes the id, rejects only
      at the stages it should, answers each error class with its code, and
      a successful final response verifies on chain for the configured
      signer ([Relay], [RelayCorrect]).

    ** Fuel and bounds

    [verifyDeployed] iterates over a finite list (structural recursion).
    The relay's state machine runs with fuel [rpc_fuel] = 5: every
    non-terminal state has a rank at most 5 that each transition lowers
    ([rpc_run_reaches_terminal]), so five transitions always reach a
    response.  Integers are kept at their on-chain width: addresses 160
    bits, timestamps [uint48], gas limits [uint128]; every encoder reduces
    modulo [2^(8*width)] ([be_value_bytes]), and the end-to-end theorem
    states the conditions under which nothing wraps ([window_ok], [gas_ok]).

    ** Not modelled

    Keccak-256, the contracts' creation codes and ECDSA over secp256k1
    are the classes [Deployment] and [Signer] (with the laws the proofs
    use), not computed.  The viem clients are modelled by the URL and chain
    they carry; the model has one node ([World.rpc_online]), reached by
    whatever URL the public client holds, and the imports of lines 1-13
    have no behaviour of their own.  The transactions inside [deployPaymasters]/[deployErc20Token] and
    the helpers' RPC calls are not under [src/]: only their contracts, the
    classes [Bootstrapper] and [Helpers], are used, and a model of each
    shows the contracts consistent.  The relay's calls to the bundler are
    not modelled: the specification gives them no observable contract.
    Fastify's plugin machinery is reduced to what the routes observe:
    [handle_http] receives the JSON its default parser produced and
    answers 200 with the relay's response; Fastify's content-type
    checks, its replies to malformed bodies, the CORS plugin's handling
    of preflight headers beyond the allowed methods, and any status code
    the relay would set itself are not modelled.  The relay is given the
    wallet's address and key; the two clients [main] also passes it
    serve calls the model does not make. *)

From stdpp Require Export base list option strings gmap.
From Stdlib Require Export ZArith Lia.

Declare Scope pm_scope.
Delimit Scope pm_scope with pm.
Open Scope pm_scope.

Create HintDb pm.
Create Rewrite HintDb pm_run.

(** ** The promise monad

    An [async] function of the entry point is a state transformer that
    either resolves with a value or rejects with an error, leaving the
    world in the state it reached.  A rejection skips the rest of the
    function, as an exception thrown by an [await] does. *)

Inductive Outcome (S E A : Type) : Type :=
| Resolved (a : A) (s : S)
| Rejected (e : E) (s : S).
Arguments Resolved {S E A} a s.
Arguments Rejected {S E A} e s.

Definition Async (S E A : Type) : Type := S -> Outcome S E A.

Section Async.
Context {S E : Type}.

Definition aret {A} (a : A) : Async S E A := fun s => Resolved a s.

Definition abind {A B} (c : Async S E A) (k : A -> Async S E B) : Async S E B :=
  fun s => match c s with
           | Resolved a s' => k a s'
           | Rejected e s' => Rejected e s'
           end.

Definition athrow {A} (e : E) : Async S E A := fun s => Rejected e s.
Definition aget : Async S E S := fun s => Resolved s s.
Definition amodify (f : S -> S) : Async S E unit := fun s => Resolved tt (f s).

(** The final state of a run, whatever its result. *)
Definition outcome_state {A} (o : Outcome S E A) : S :=
  match o with Resolved _ s => s | Rejected _ s => s end.

(** [for (const x of xs) body(x)] threading an accumulator. *)
Fixpoint afold {A B} (body : B -> A -> Async S E B) (acc : B) (xs : list A)
    : Async S E B :=
  match xs with
  | [] => aret acc
  | x :: xs' => abind (body acc x) (fun acc' => afold body acc' xs')
  end.
End Async.

Notation "'let*' x := c 'in' k" := (abind c (fun x => k))
  (at level 100, x name, c at next level, right associativity) : pm_scope.
Notation "c ;;; k" := (abind c (fun _ => k))
  (at level 100, right associativity) : pm_scope.

(** ** The error monad of pure fallible code: [E + A] *)

Definition sbind {E A B} (m : E + A) (k : A -> E + B) : E + B :=
  match m with inl e => inl e | inr a => k a end.

Notation "x <-? m ;; k" := (sbind m (fun x => k))
  (at level 100, m at next level, right associativity) : pm_scope.

(** Turn a failed parse into the error [e]. *)
Definition or_error {E A} (e : E) (o : option A) : E + A :=
  match o with Some a => inr a | None => inl e end.

(** Rename the error of a fallible computation. *)
Definition map_inl {E E' A} (f : E -> E') (m : E + A) : E' + A :=
  match m with inl e => inl (f e) | inr a => inr a end.

(** ** Laws of the promise monad *)

Section AsyncLaws.
Context {S E : Type}.

Lemma abind_aret_l {A B} (a : A) (k : A -> Async S E B) s :
  abind (aret a) k s = k a s.
Proof. reflexivity. Qed.

Lemma abind_assoc {A B C} (c : Async S E A) (k1 : A -> Async S E B)
    (k2 : B -> Async S E C) s :
  abind (abind c k1) k2 s = abind c (fun a => abind (k1 a) k2) s.
Proof. unfold abind. by destruct (c s). Qed.

Lemma abind_amodify {B} (f : S -> S) (k : unit -> Async S E B) s :
  abind (amodify f) k s = k tt (f s).
Proof. reflexivity. Qed.

Lemma abind_resolved {A B} (c : Async S E A) (k : A -> Async S E B) s a s' :
  c s = Resolved a s' -> abind c k s = k a s'.
Proof. unfold abind. by intros ->. Qed.

Lemma abind_rejected {A B} (c : Async S E A) (k : A -> Async S E B) s e s' :
  c s = Rejected e s' -> abind c k s = Rejected e s'.
Proof. unfold abind. by intros ->. Qed.

(** [c] leaves the projection [f] of the state unchanged, whether it
    resolves or rejects. *)
Definition preserves {A T} (f : S -> T) (c : Async S E A) : Prop :=
  forall s, f (outcome_state (c s)) = f s.

Lemma preserves_aret {A T} (f : S -> T) (a : A) : preserves f (aret a).
Proof. done. Qed.

Lemma preserves_athrow {A T} (f : S -> T) (e : E) : preserves f (athrow (A := A) e).
Proof. done. Qed.

Lemma preserves_amodify {T} (f : S -> T) (g : S -> S) :
  (forall s, f (g s) = f s) -> preserves f (amodify g).
Proof. intros Hg s. apply Hg. Qed.

Lemma preserves_abind {A B T} (f : S -> T) (c : Async S E A) (k : A -> Async S E B) :
  preserves f c -> (forall a, preserves f (k a)) -> preserves f (abind c k).
Proof.
  intros Hc Hk s. specialize (Hc s). unfold abind.
  destruct (c s) as [a s'|e s']; simpl in *; [|done]. rewrite Hk. done.
Qed.

Lemma preserves_afold {A B T} (f : S -> T) (body : B -> A -> Async S E B) acc xs :
  (forall acc x, preserves f (body acc x)) -> preserves f (afold body acc xs).
Proof.
  intros Hbody. revert acc. induction xs as [|x xs IH]; intros acc; simpl.
  - apply preserves_aret.
  - apply preserves_abind; [apply Hbody|apply IH].
Qed.

Lemma preserves_resolved {A T} (f : S -> T) (c : Async S E A) s a s' :
  preserves f c -> c s = Resolved a s' -> f s' = f s.
Proof. intros Hc Hrun. specialize (Hc s). rewrite Hrun in Hc. exact Hc. Qed.

Lemma preserves_rejected {A T} (f : S -> T) (c : Async S E A) s e s' :
  preserves f c -> c s = Rejected e s' -> f s' = f s.
Proof. intros Hc Hrun. specialize (Hc s). rewrite Hrun in Hc. exact Hc. Qed.

Lemma preserves_compose {A T U} (f : S -> T) (g : T -> U) (c : Async S E A) :
  preserves f c -> preserves (fun s => g (f s)) c.
Proof. intros Hc s. rewrite (Hc s). done. Qed.

(** Inversion of a bind that resolved or rejected. *)
Lemma abind_Resolved_inv {A B} (c : Async S E A) (k : A -> Async S E B) s b s' :
  abind c k s = Resolved b s' -> exists a s1, c s = Resolved a s1 /\ k a s1 = Resolved b s'.
Proof. unfold abind. destruct (c s) as [a s1|e s1]; [eauto|discriminate]. Qed.

Lemma abind_Rejected_inv {A B} (c : Async S E A) (k : A -> Async S E B) s e s' :
  abind c k s = Rejected e s' ->
  c s = Rejected e s' \/ exists a s1, c s = Resolved a s1 /\ k a s1 = Rejected e s'.
Proof. unfold abind. destruct (c s) as [a s1|e1 s1]; [eauto|intros [= -> ->]; auto]. Qed.
End AsyncLaws.

#[export] Hint Rewrite @abind_aret_l @abind_amodify @abind_assoc : pm_run.
#[export] Hint Resolve preserves_aret preserves_athrow preserves_abind preserves_afold : pm.

(** ** Shared tactics *)

(** Split a resolved run [abind c k s = Resolved ..] into the run of [c]
    and the run of its continuation, as often as the hypothesis allows. *)
Ltac inv_bind H :=
  repeat match type of H with
  | abind _ _ _ = Resolved _ _ =>
      let a := fresh "a" in let s := fresh "s" in let Hc := fresh "Hc" in
      apply abind_Resolved_inv in H as (a & s & Hc & H); cbv beta in H
  end.


