(* ===== verification/Bytes.v ===== *)
(** * Bytes, fixed-width integers and hexadecimal addresses

    The paymaster's wire data is built by viem's [concat], [pad],
    [numberToHex] and [encodeAbiParameters]: byte strings in which every
    integer occupies a fixed number of big-endian bytes, and addresses
    written as [0x] followed by forty hexadecimal digits.  This file holds
    the positional digit expansion in a radix [r] shared by both
    ([le_digits]/[le_value], a Section over the radix), the byte encoders
    [be_bytes]/[be_value] built on it, and the address spelling
    [address_hex]/[parse_address] and of byte strings, with their
    parse/print round trips. *)

From S2P Require Import Prelude.
From Stdlib Require Import Ascii.

Open Scope Z_scope.

Abbreviation bytes := (list Byte.byte).

(** ** Digits in a radix *)

Section Radix.
Context (r : Z) (Hr : 1 < r).

(** The [n] least significant digits of [x], least significant first. *)
Fixpoint le_digits (n : nat) (x : Z) : list Z :=
  match n with
  | O => []
  | S n' => x mod r :: le_digits n' (x / r)
  end.

Fixpoint le_value (ds : list Z) : Z :=
  match ds with
  | [] => 0
  | d :: ds' => d + r * le_value ds'
  end.

Definition is_digit (d : Z) : Prop := 0 <= d < r.

Lemma length_le_digits n x : length (le_digits n x) = n.
Proof. revert x; induction n; intros; simpl; auto. Qed.

Lemma le_digits_digits n x : Forall is_digit (le_digits n x).
Proof.
  revert x; induction n as [|n IH]; intros x; constructor; [|apply IH].
  unfold is_digit. apply Z.mod_pos_bound. lia.
Qed.

(** The expansion keeps [x] modulo [r^n]: bits above the width are lost. *)
Lemma le_value_digits n x : le_value (le_digits n x) = x mod r ^ Z.of_nat n.
Proof.
  revert x; induction n as [|n IH]; intros x; simpl le_digits; simpl le_value.
  - rewrite Z.pow_0_r, Z.mod_1_r. done.
  - rewrite IH, Nat2Z.inj_succ, Z.pow_succ_r by lia.
    rewrite Z.rem_mul_r; [done|lia|]. apply Z.pow_pos_nonneg; lia.
Qed.

Lemma le_value_bound ds :
  Forall is_digit ds -> 0 <= le_value ds < r ^ Z.of_nat (length ds).
Proof.
  induction 1 as [|d ds Hd _ IH]; simpl; [lia|].
  rewrite Nat2Z.inj_succ, Z.pow_succ_r by lia. unfold is_digit in Hd. nia.
Qed.

(** Digits read back from their value are the digits themselves. *)
Lemma le_digits_value ds :
  Forall is_digit ds -> le_digits (length ds) (le_value ds) = ds.
Proof.
  induction 1 as [|d ds Hd Hds IH]; simpl; [done|]. unfold is_digit in Hd.
  pose proof (le_value_bound ds Hds).
  f_equal.
  - rewrite Z.mul_comm, Z.mod_add by lia. apply Z.mod_small. lia.
  - rewrite Z.mul_comm, Z.div_add, (Z.div_small d r) by lia. apply IH.
Qed.

Lemma le_digits_mod n x : le_digits n (x mod r ^ Z.of_nat n) = le_digits n x.
Proof.
  revert x; induction n as [|n IH]; intros x; [done|].
  rewrite Nat2Z.inj_succ, Z.pow_succ_r by lia. simpl.
  rewrite Z.rem_mul_r by (try apply Z.pow_pos_nonneg; lia).
  assert (0 <= (x / r) mod r ^ Z.of_nat n < r ^ Z.of_nat n)
    by (apply Z.mod_pos_bound, Z.pow_pos_nonneg; lia).
  pose proof (Z.mod_pos_bound x r ltac:(lia)).
  f_equal.
  - rewrite Z.mul_comm, Z.mod_add by lia. apply Z.mod_mod. lia.
  - rewrite Z.mul_comm, Z.div_add, (Z.div_small (x mod r) r) by lia. apply IH.
Qed.
End Radix.

#[export] Hint Resolve le_digits_digits : pm.

(** ** Bytes *)

Definition byte_of_Z (z : Z) : Byte.byte :=
  match Byte.of_N (Z.to_N (z mod 256)) with Some b => b | None => Byte.x00 end.

Definition byte_val (b : Byte.byte) : Z := Z.of_N (Byte.to_N b).

Lemma byte_val_of_Z z : byte_val (byte_of_Z z) = z mod 256.
Proof.
  unfold byte_of_Z, byte_val.
  pose proof (Z.mod_pos_bound z 256 ltac:(lia)).
  destruct (Byte.of_N _) as [b|] eqn:E.
  - apply Byte.to_of_N in E. rewrite E. lia.
  - apply Byte.of_N_None_iff in E. lia.
Qed.

Lemma byte_val_bound b : 0 <= byte_val b < 256.
Proof. unfold byte_val. pose proof (Byte.to_N_bounded b). lia. Qed.

Lemma byte_of_Z_val b : byte_of_Z (byte_val b) = b.
Proof.
  unfold byte_of_Z, byte_val. rewrite Z.mod_small by (pose proof (Byte.to_N_bounded b); lia).
  rewrite N2Z.id, Byte.of_to_N. done.
Qed.

(** [n] big-endian bytes of [x]: viem's [numberToHex(x, {size: n})] read as
    bytes, and the layout of a [uintN] in [abi.encodePacked]. *)
Definition be_bytes (n : nat) (x : Z) : bytes :=
  rev (map byte_of_Z (le_digits 256 n x)).

Definition be_value (bs : bytes) : Z := le_value 256 (map byte_val (rev bs)).

Lemma length_be_bytes n x : length (be_bytes n x) = n.
Proof. unfold be_bytes. rewrite length_rev, length_map. apply length_le_digits. Qed.

Lemma map_byte_val_of_digits n x :
  map byte_val (map byte_of_Z (le_digits 256 n x)) = le_digits 256 n x.
Proof.
  rewrite map_map, (map_ext_in _ id), map_id; [done|]. intros d Hd.
  rewrite byte_val_of_Z. apply Z.mod_small.
  pose proof (le_digits_digits 256 ltac:(lia) n x) as HF. rewrite List.Forall_forall in HF.
  apply HF. done.
Qed.

(** Decoding [n] encoded bytes gives the value modulo [2^(8n)]. *)
Lemma be_value_bytes n x : be_value (be_bytes n x) = x mod 2 ^ (8 * Z.of_nat n).
Proof.
  unfold be_value, be_bytes. rewrite rev_involutive, map_byte_val_of_digits.
  rewrite le_value_digits by lia. rewrite Z.pow_mul_r by lia. done.
Qed.

Lemma be_bytes_value bs : be_bytes (length bs) (be_value bs) = bs.
Proof.
  unfold be_bytes, be_value.
  rewrite <- (length_rev bs), <- (length_map byte_val (rev bs)).
  rewrite le_digits_value; [|lia|apply List.Forall_forall; intros d Hd;
    apply in_map_iff in Hd as [b [<- _]]; apply byte_val_bound].
  rewrite map_map, (map_ext_in _ id) by (intros; apply byte_of_Z_val).
  rewrite map_id. apply rev_involutive.
Qed.

Lemma be_bytes_mod n x : be_bytes n (x mod 2 ^ (8 * Z.of_nat n)) = be_bytes n x.
Proof.
  unfold be_bytes. rewrite Z.pow_mul_r by lia. change (2 ^ 8) with 256.
  rewrite le_digits_mod by lia. done.
Qed.

(** Overflow of the fixed-width encoding: two integers encode to
    the same [n] bytes exactly when they agree modulo [2^(8n)], so a value
    wider than its slot is silently wrapped, never rejected. *)
Lemma be_bytes_wraps n x y :
  be_bytes n x = be_bytes n y <-> x mod 2 ^ (8 * Z.of_nat n) = y mod 2 ^ (8 * Z.of_nat n).
Proof.
  split.
  - intros H. rewrite <- !be_value_bytes, H. done.
  - intros H. rewrite <- be_bytes_mod, H. apply be_bytes_mod.
Qed.

#[export] Hint Rewrite length_be_bytes be_value_bytes be_bytes_value : pm_run.

(** ** Hexadecimal addresses

    An [Address] of viem is the string [0x] followed by forty hexadecimal
    digits, accepted in either case ([isAddress]); it denotes a 160-bit
    number.  [address_hex] writes the lower-case spelling, the one the
    relay's responses are modelled with; [parse_address] reads either
    case.  The EIP-55 mixed-case spelling in which [main] logs addresses
    needs Keccak-256, and is [Registry.checksum_address]. *)

Definition address_width : nat := 20.
Definition address_modulus : Z := 2 ^ 160.

Definition hex_char (d : Z) : ascii :=
  if d <? 10 then ascii_of_nat (48 + Z.to_nat d) else ascii_of_nat (87 + Z.to_nat d).

Definition hex_val (c : ascii) : option Z :=
  let n := nat_of_ascii c in
  if (48 <=? n)%nat && (n <=? 57)%nat then Some (Z.of_nat n - 48)
  else if (97 <=? n)%nat && (n <=? 102)%nat then Some (Z.of_nat n - 87)
  else if (65 <=? n)%nat && (n <=? 70)%nat then Some (Z.of_nat n - 55)
  else None.

Fixpoint hex_vals (cs : list ascii) : option (list Z) :=
  match cs with
  | [] => Some []
  | c :: cs' =>
      match hex_val c, hex_vals cs' with
      | Some d, Some ds => Some (d :: ds)
      | _, _ => None
      end
  end.

Definition address_hex (a : Z) : string :=
  String.append "0x" (String.string_of_list_ascii (rev (map hex_char (le_digits 16 40 a)))).

Definition parse_address (s : string) : option Z :=
  match String.list_ascii_of_string s with
  | c0 :: c1 :: cs =>
      if (Ascii.eqb c0 "0" && Ascii.eqb c1 "x" && (length cs =? 40)%nat)%bool
      then option_map (fun ds => le_value 16 (rev ds)) (hex_vals cs)
      else None
  | _ => None
  end.

Lemma hex_val_char d : 0 <= d < 16 -> hex_val (hex_char d) = Some d.
Proof.
  intros Hd.
  assert (d = 0 \/ d = 1 \/ d = 2 \/ d = 3 \/ d = 4 \/ d = 5 \/ d = 6 \/ d = 7 \/
          d = 8 \/ d = 9 \/ d = 10 \/ d = 11 \/ d = 12 \/ d = 13 \/ d = 14 \/ d = 15)
    as Hcases by lia.
  repeat destruct Hcases as [->|Hcases]; [..|subst]; reflexivity.
Qed.

Lemma hex_vals_map ds :
  Forall (is_digit 16) ds -> hex_vals (map hex_char ds) = Some ds.
Proof.
  induction 1 as [|d ds Hd _ IH]; simpl; [done|].
  rewrite hex_val_char, IH by exact Hd. done.
Qed.

Lemma hex_vals_digits cs ds : hex_vals cs = Some ds -> Forall (is_digit 16) ds.
Proof.
  revert ds; induction cs as [|c cs IH]; intros ds H; simpl in H.
  - by injection H as <-.
  - destruct (hex_val c) as [d|] eqn:Hc, (hex_vals cs) as [ds'|]; try discriminate.
    injection H as <-. constructor; [|by apply IH].
    unfold hex_val, is_digit in *.
    pose proof (nat_ascii_bounded c).
    repeat match type of Hc with context [if ?b then _ else _] =>
      destruct b eqn:?; [injection Hc as <-; rewrite ?andb_true_iff, ?Nat.leb_le in *; lia|]
    end; discriminate.
Qed.

Lemma length_hex_vals cs ds : hex_vals cs = Some ds -> length ds = length cs.
Proof.
  revert ds; induction cs as [|c cs IH]; intros ds H; simpl in H.
  - by injection H as <-.
  - destruct (hex_val c), (hex_vals cs) as [ds'|] eqn:E; try discriminate.
    injection H as <-. simpl. f_equal. by apply IH.
Qed.

Lemma rev_Forall {A} (P : A -> Prop) xs : Forall P xs -> Forall P (rev xs).
Proof. rewrite !List.Forall_forall. intros H x Hx. apply H, in_rev, Hx. Qed.

Lemma hex_prefix l :
  String.list_ascii_of_string (String.append "0x" (String.string_of_list_ascii l))
  = "0"%char :: "x"%char :: l.
Proof. exact (f_equal (cons _) (f_equal (cons _) (String.list_ascii_of_string_of_list_ascii l))). Qed.

(** Printing then parsing an address gives it back, reduced to 160 bits. *)
Lemma parse_address_hex a : parse_address (address_hex a) = Some (a mod address_modulus).
Proof.
  replace (a mod address_modulus) with (le_value 16 (le_digits 16 40 a))
    by (rewrite le_value_digits by lia; reflexivity).
  unfold parse_address, address_hex. rewrite hex_prefix.
  pose proof (length_le_digits 16 40 a) as Hl.
  pose proof (le_digits_digits 16 ltac:(lia) 40 a) as Hd.
  generalize dependent (le_digits 16 40 a). intros ds Hl Hd.
  rewrite length_rev, length_map, Hl. cbn -[hex_vals].
  rewrite <- map_rev, hex_vals_map by (apply rev_Forall, Hd).
  simpl. rewrite rev_involutive. done.
Qed.

(** Every string [parse_address] accepts denotes a 160-bit number. *)
Lemma parse_address_bound s a : parse_address s = Some a -> 0 <= a < address_modulus.
Proof.
  unfold parse_address. destruct (String.list_ascii_of_string s) as [|c0 [|c1 cs]]; try discriminate.
  destruct (_ && _)%bool eqn:Hc; [|discriminate].
  apply andb_true_iff in Hc as [_ Hl]. apply Nat.eqb_eq in Hl.
  destruct (hex_vals cs) as [ds|] eqn:Hds; [|discriminate]. intros [= <-].
  pose proof (le_value_bound 16 ltac:(lia) (rev ds)
                (rev_Forall _ _ (hex_vals_digits _ _ Hds))) as Hb.
  rewrite length_rev, (length_hex_vals _ _ Hds), Hl in Hb. exact Hb.
Qed.

(** ** Hexadecimal byte strings

    viem's [toHex] of a byte array: [0x] and two lower-case digits per
    byte; [hexToBytes] reads them back (either case) and refuses an odd
    number of digits. *)

Definition byte_hex (b : Byte.byte) : list ascii :=
  [hex_char (byte_val b / 16); hex_char (byte_val b mod 16)].

Definition bytes_hex (bs : bytes) : string :=
  String.append "0x" (String.string_of_list_ascii (flat_map byte_hex bs)).

Fixpoint hex_pairs (cs : list ascii) : option bytes :=
  match cs with
  | [] => Some []
  | c1 :: c2 :: cs' =>
      match hex_val c1, hex_val c2, hex_pairs cs' with
      | Some hi, Some lo, Some rest => Some (byte_of_Z (16 * hi + lo) :: rest)
      | _, _, _ => None
      end
  | [_] => None
  end.

Definition parse_hex_bytes (s : string) : option bytes :=
  match String.list_ascii_of_string s with
  | c0 :: c1 :: cs => if (Ascii.eqb c0 "0" && Ascii.eqb c1 "x")%bool then hex_pairs cs else None
  | _ => None
  end.

Lemma hex_pairs_bytes bs : hex_pairs (flat_map byte_hex bs) = Some bs.
Proof.
  induction bs as [|b bs IH]; simpl; [done|].
  pose proof (byte_val_bound b).
  rewrite !hex_val_char by (first [apply Z.mod_pos_bound | split; [apply Z.div_pos|apply Z.div_lt_upper_bound]]; lia).
  rewrite IH. do 2 f_equal.
  rewrite <- (Z.div_mod (byte_val b) 16) by lia. apply byte_of_Z_val.
Qed.

(** Printing bytes in hexadecimal and reading them back gives them back. *)
Lemma parse_hex_bytes_hex bs : parse_hex_bytes (bytes_hex bs) = Some bs.
Proof.
  unfold parse_hex_bytes, bytes_hex. rewrite hex_prefix. simpl. apply hex_pairs_bytes.
Qed.
