(* ===== verification/Registry.v ===== *)
(** * Paymaster Registry: the three singleton paymaster addresses

    [index.ts] lines 52-56 compute the addresses of the three singleton
    paymasters from the signer's address with
    [getSingletonPaymaster06/07/08Address] of [./constants], a module that
    is not under [src/].  Following the specification (section 4.1), each
    address is a deterministic contract-creation address: a CREATE2 address
    of the deterministic deployer, the salt [0], and the paymaster's
    creation code followed by its ABI-encoded constructor arguments (the
    entry point of its version and the owner).  Keccak-256 and the
    creation code are the class [Deployment]: the theorems hold for every
    hash function and every bytecode.  The file also holds viem's EIP-55
    checksummed spelling of an address ([checksum_address]), which needs
    the same hash and is how [main] logs addresses. *)

From S2P Require Import Prelude Bytes.
From Stdlib Require Import Ascii.

Open Scope Z_scope.

(** ** Entry-point versions

    The specification's {V1, V2, V3}: ERC-4337 entry points 0.6, 0.7 and
    0.8, the suffixes of [paymaster06], [paymaster07], [paymaster08]. *)
Inductive EntryPointVersion := V06 | V07 | V08.

#[export] Instance EntryPointVersion_eq_dec : EqDecision EntryPointVersion.
Proof. solve_decision. Defined.

Definition all_versions : list EntryPointVersion := [V06; V07; V08].

Lemma all_versions_complete v : v ∈ all_versions.
Proof. destruct v; set_solver. Qed.

#[export] Hint Resolve all_versions_complete : pm.

(** The canonical ERC-4337 entry-point deployments. *)
Definition entry_point_address (v : EntryPointVersion) : Z :=
  match v with
  | V06 => 0x5FF137D4b0FDCD49DcA30c7CF57E578a026d2789
  | V07 => 0x0000000071727De22E5E9d8BAf0edAc6f37da032
  | V08 => 0x4337084D9E255Ff0702461CF8895CE9E3b5Ff108
  end.

(** Arachnid's deterministic deployment proxy, present on every Anvil chain. *)
Definition deterministic_deployer : Z := 0x4e59b44847b379578588920ca78fbf26c0b4956c.

Class Deployment := {
  keccak256 : bytes -> Z;
  creation_code : EntryPointVersion -> bytes;
  token_creation_code : bytes
}.

Inductive RegistryError := ConfigurationError (deployer : string).

Section Registry.
Context `{Deployment}.

(** [getContractAddress({opcode: "CREATE2", from, salt, bytecode})]:
    the low 160 bits of [keccak256(0xff ++ from ++ salt ++ keccak256(code))]. *)
Definition create2_preimage (from salt : Z) (init_code : bytes) : bytes :=
  [Byte.xff] ++ be_bytes 20 from ++ be_bytes 32 salt ++ be_bytes 32 (keccak256 init_code).

Definition create2_address (from salt : Z) (init_code : bytes) : Z :=
  keccak256 (create2_preimage from salt init_code) mod address_modulus.

(** [encodeAbiParameters([address, address], [entryPoint, owner])]. *)
Definition paymaster_init_code (v : EntryPointVersion) (owner : Z) : bytes :=
  creation_code v ++ be_bytes 32 (entry_point_address v) ++ be_bytes 32 owner.

(** [getSingletonPaymaster06Address], [..07..], [..08..] of [./constants]. *)
Definition getSingletonPaymasterAddress (v : EntryPointVersion) (owner : Z) : Z :=
  create2_address deterministic_deployer 0 (paymaster_init_code v owner).

(** The registry's [addressFor(version, deployerAddress)] of the
    specification: the deployer comes as viem's [Address] string and a
    malformed one is a [ConfigurationError]. *)
Definition addressFor (v : EntryPointVersion) (deployer : string) : RegistryError + Z :=
  match parse_address deployer with
  | Some owner => inr (getSingletonPaymasterAddress v owner)
  | None => inl (ConfigurationError deployer)
  end.

(** The table [index.ts] builds at lines 52-56, in version order. *)
Definition paymaster_addresses (owner : Z) : list Z :=
  [getSingletonPaymasterAddress V06 owner;
   getSingletonPaymasterAddress V07 owner;
   getSingletonPaymasterAddress V08 owner].

(** The sponsorship-fee token of [./helpers/erc20-utils], deployed the
    same deterministic way with the owner as constructor argument. *)
Definition erc20TokenAddress (owner : Z) : Z :=
  create2_address deterministic_deployer 0 (token_creation_code ++ be_bytes 32 owner).

(** ** viem's [getAddress]: the EIP-55 spelling of an address

    viem hands addresses around as checksummed strings: the forty hex
    digits in lower case are hashed as ASCII with Keccak-256, and each
    letter is upper-cased when the matching nibble of the hash is 8 or
    more.  This is the spelling [console.log] prints for an address. *)

Definition upcase_hex (c : ascii) : ascii :=
  let n := nat_of_ascii c in if ((97 <=? n) && (n <=? 102))%nat then ascii_of_nat (n - 32) else c.

(** Digit [i] (from the left) is checked against nibble [i] of the hash,
    whose top bit is bit [255 - 4i]. *)
Fixpoint checksum_digits (h : Z) (i : nat) (cs : list ascii) : list ascii :=
  match cs with
  | [] => []
  | c :: cs' =>
      (if Z.testbit h (255 - 4 * Z.of_nat i) then upcase_hex c else c) :: checksum_digits h (S i) cs'
  end.

Definition lower_hex_digits (a : Z) : list ascii := rev (map hex_char (le_digits 16 40 a)).

Definition checksum_address (a : Z) : string :=
  let ds := lower_hex_digits a in
  let h := keccak256 (map (fun c => byte_of_Z (Z.of_nat (nat_of_ascii c))) ds) in
  String.append "0x" (String.string_of_list_ascii (checksum_digits h 0 ds)).

Lemma length_create2_preimage from salt code :
  length (create2_preimage from salt code) = 85%nat.
Proof. unfold create2_preimage. rewrite !length_app, !length_be_bytes. done. Qed.

Lemma create2_address_bound from salt code :
  0 <= create2_address from salt code < address_modulus.
Proof. unfold create2_address, address_modulus. apply Z.mod_pos_bound. lia. Qed.

End Registry.

#[export] Hint Resolve create2_address_bound : pm.

(** A concrete [Deployment] for evaluating examples: a stand-in 256-bit
    polynomial hash in place of Keccak-256 and one-byte creation codes.
    No theorem depends on it. *)
Definition example_hash (bs : bytes) : Z :=
  fold_left (fun h b => (h * 0x100000001b3 + byte_val b) mod 2 ^ 256) bs 0xcbf29ce484222325.

Definition example_deployment : Deployment := {|
  keccak256 := example_hash;
  creation_code := fun v => match v with V06 => [Byte.x06] | V07 => [Byte.x07] | V08 => [Byte.x08] end;
  token_creation_code := [Byte.x20]
|}.
