(* ===== verification/World.v ===== *)
(** * The process's world and its effects

    The entry point of [index.ts] is an [async] function: each [await]
    reads or changes something outside the program.  This file gathers
    what it touches into one record [World], threaded through the promise
    monad [Async] of the prelude as [M]:
    - [env]: [process.env] (lines 33-34);
    - [rpc_online] and [chain_code]: the Anvil node behind [ANVIL_RPC],
      whose [eth_getCode] answers come from [chain_code] (line 18);
    - [app]: the Fastify instance (lines 32, 74-90): CORS options,
      registered routes and the listening address;
    - [ports_taken]: the local ports another process already listens on;
    - [trace]: every effect in program order ([console.log], RPC reads,
      deployments, registrations), so that ordering claims can be stated.
    The effects are the small operations at the end of the file; the
    steps of [main] that use them are in [Bootstrap] and [Server]. *)

From S2P Require Import Prelude Bytes.

Open Scope Z_scope.

Inductive HttpMethod := GET | POST | OPTIONS.

#[export] Instance HttpMethod_eq_dec : EqDecision HttpMethod.
Proof. solve_decision. Defined.

(** The handlers [main] registers: on [POST /] the handler
    [createRpcHandler] returns, given by what it captures from [main]
    (lines 79-83: the [paymasterSigner] wallet's address and key), and on
    [GET /ping] the anonymous [pong] handler. *)
Inductive Handler :=
| RpcHandler (paymasterSigner : Z) (signer_key : Z)
| PingHandler.

Record Route := mkRoute {
  route_method : HttpMethod;
  route_path : string;
  route_handler : Handler
}.

Record CorsOptions := mkCorsOptions {
  cors_origin : string;
  cors_methods : list HttpMethod
}.

Record App := mkApp {
  app_cors : option CorsOptions;
  app_routes : list Route;
  app_listening : option (string * Z)
}.

(** [Fastify({})]: no plugin, no route, not listening. *)
Definition fastify_new : App := mkApp None [] None.

Inductive Event :=
| EvLog (args : list string)
| EvGetCode (address : Z)
| EvDeploy (contract : string) (address : Z)
| EvRegister (plugin : string)
| EvRoute (m : HttpMethod) (path : string)
| EvListen (host : string) (port : Z).

Record World := mkWorld {
  env : gmap string string;
  rpc_online : bool;
  chain_code : gmap Z string;
  app : App;
  ports_taken : list Z;
  trace : list Event
}.

(** Why an [await] rejects. *)
Inductive Error :=
| HttpRequestError (url : string)   (** viem: the node did not answer *)
| ListenError (port : Z).           (** Fastify: the port is taken *)

Abbreviation M A := (Async World Error A).

(** ** Updates of the world *)

Definition with_trace (evs : list Event) (w : World) : World :=
  mkWorld (env w) (rpc_online w) (chain_code w) (app w) (ports_taken w) (trace w ++ evs).

Definition record_event (e : Event) (w : World) : World := with_trace [e] w.

Definition set_code (a : Z) (code : string) (w : World) : World :=
  mkWorld (env w) (rpc_online w) (<[a := code]> (chain_code w)) (app w) (ports_taken w) (trace w).

Definition set_app (f : App -> App) (w : World) : World :=
  mkWorld (env w) (rpc_online w) (chain_code w) (f (app w)) (ports_taken w) (trace w).

(** The part of the world the HTTP server owns: the Fastify instance and
    the ports bound on the host. *)
Definition server (w : World) : App * list Z := (app w, ports_taken w).

(** A socket bound to [port]: no other [listen] can take it. *)
Definition take_port (port : Z) (w : World) : World :=
  mkWorld (env w) (rpc_online w) (chain_code w) (app w) (port :: ports_taken w) (trace w).

(** ** Effects *)

(** [console.log(a, b, ...)]. *)
Definition console_log (args : list string) : M unit := amodify (record_event (EvLog args)).

(** [process.env[name] as string]: the cast checks nothing, an unset
    variable is [undefined] ([None]). *)
Definition read_env (name : string) : M (option string) := fun w => Resolved (env w !! name) w.

Definition anvil_url (w : World) : string :=
  default "" (env w !! "ANVIL_RPC").

(** [publicClient.getCode({address})]: [eth_getCode] at the latest block;
    [undefined] for an address the node has no entry for.  It rejects when
    the node does not answer. *)
Definition getCode (address : Z) : M (option string) :=
  fun w => if rpc_online w
           then Resolved (chain_code w !! address) (record_event (EvGetCode address) w)
           else Rejected (HttpRequestError (anvil_url w)) w.

(** ** Frame lemmas: what each update leaves alone *)

Lemma with_trace_app xs ys w : with_trace ys (with_trace xs w) = with_trace (xs ++ ys) w.
Proof. unfold with_trace. simpl. by rewrite app_assoc. Qed.
Lemma with_trace_nil w : with_trace [] w = w.
Proof. destruct w. unfold with_trace. simpl. by rewrite app_nil_r. Qed.
Lemma with_trace_chain_code evs w : chain_code (with_trace evs w) = chain_code w.
Proof. done. Qed.
Lemma with_trace_app_field evs w : app (with_trace evs w) = app w.
Proof. done. Qed.
Lemma record_event_chain_code e w : chain_code (record_event e w) = chain_code w.
Proof. done. Qed.
Lemma record_event_app e w : app (record_event e w) = app w.
Proof. done. Qed.
Lemma record_event_rpc_online e w : rpc_online (record_event e w) = rpc_online w.
Proof. done. Qed.
Lemma record_event_trace e w : trace (record_event e w) = trace w ++ [e].
Proof. done. Qed.
Lemma set_app_trace f w : trace (set_app f w) = trace w.
Proof. done. Qed.
Lemma set_app_chain_code f w : chain_code (set_app f w) = chain_code w.
Proof. done. Qed.
Lemma set_app_app f w : app (set_app f w) = f (app w).
Proof. done. Qed.
Lemma set_code_chain_code a c w : chain_code (set_code a c w) = <[a := c]> (chain_code w).
Proof. done. Qed.
Lemma set_code_app a c w : app (set_code a c w) = app w.
Proof. done. Qed.

(** What leaves the server's state alone leaves the Fastify app alone. *)
Lemma preserves_server_app {A} (c : M A) : preserves server c -> preserves app c.
Proof. apply (preserves_compose server fst). Qed.

#[export] Hint Rewrite with_trace_app with_trace_nil with_trace_chain_code with_trace_app_field
  record_event_chain_code record_event_app record_event_rpc_online
  record_event_trace set_app_trace set_app_chain_code set_app_app set_code_chain_code set_code_app : pm_run.

(** A world for examples: the given node state, an empty environment, a
    fresh Fastify instance and an empty trace. *)
Definition example_world (online : bool) (code : gmap Z string) : World :=
  mkWorld ∅ online code fastify_new [] [].

(** ** What the effects preserve *)

Lemma console_log_preserves {T} (f : World -> T) args :
  (forall e w, f (record_event e w) = f w) -> preserves f (console_log args).
Proof. intros Hf. apply preserves_amodify. intros. apply Hf. Qed.

Lemma read_env_preserves {T} (f : World -> T) name : preserves f (read_env name).
Proof. done. Qed.

Lemma getCode_preserves {T} (f : World -> T) a :
  (forall e w, f (record_event e w) = f w) -> preserves f (getCode a).
Proof. intros Hf w. unfold getCode. destruct (rpc_online w); simpl; [apply Hf|done]. Qed.

#[export] Hint Resolve console_log_preserves read_env_preserves getCode_preserves : pm.
