(* ===== verification/Bootstrap.v ===== *)
(** * Bootstrap: the deployment check and the deploy-if-missing branch

    [verifyDeployed] (index.ts 15-28) asks the chain for the code at each
    paymaster address, logs every missing one, and returns whether all
    carry code.  Lines 58-72 of [main] then either print the addresses or
    call [deployPaymasters] and [deployErc20Token] of [./singletonPaymasters]
    and [./helpers/erc20-utils].  Those two collaborators are not under
    [src/]: the class [Bootstrapper] states what [main] relies on them for
    (the contracts exist afterwards, no code is removed, the Fastify app is
    not touched), and [mock_bootstrapper] is a model of them, from the
    specification's Bootstrap Collaborator, that meets the class. *)

From S2P Require Import Prelude Bytes Registry World.
From Stdlib Require Import Ascii.

Open Scope Z_scope.

(** [!bytecode || bytecode === "0x"] (line 21): [undefined] and the empty
    string are falsy. *)
Definition bytecode_missing (bytecode : option string) : bool :=
  match bytecode with
  | None => true
  | Some s => bool_decide (s = "") || bool_decide (s = "0x")
  end.

(** What [getCode] would answer for [a] in [w] passes the check of line 21. *)
Definition deployed (w : World) (a : Z) : bool := negb (bytecode_missing (chain_code w !! a)).

Section Check.
Context `{Deployment}.

(** Line 22: the template prints the address string, which viem's
    [getContractAddress] returns in its EIP-55 spelling. *)
Definition not_deployed_message (address : Z) : string :=
  "CONTRACT " +:+ checksum_address address +:+ " NOT DEPLOYED!!!".

(** The loop body, lines 18-25: [isDeployed] is only ever lowered. *)
Definition verifyDeployed_step (isDeployed : bool) (address : Z) : M bool :=
  let* bytecode := getCode address in
  if bytecode_missing bytecode
  then console_log [not_deployed_message address] ;;; aret false
  else aret isDeployed.

(** [verifyDeployed(client, addresses)], lines 15-28. *)
Definition verifyDeployed (addresses : list Z) : M bool :=
  afold verifyDeployed_step true addresses.

(** The effects [verifyDeployed] leaves in the trace: one [getCode] per
    address, in order, each followed by the log line when it is missing. *)
Definition verify_events (w : World) (addresses : list Z) : list Event :=
  flat_map (fun a => EvGetCode a :: (if deployed w a then [] else [EvLog [not_deployed_message a]]))
    addresses.
End Check.

(** ** The deployment collaborators *)

Class Bootstrapper `{Deployment} := {
  deployPaymasters : Z -> M unit;
  deployErc20Token : Z -> M unit;
  deployPaymasters_deploys owner w w' :
    deployPaymasters owner w = Resolved tt w' ->
    forall v, deployed w' (getSingletonPaymasterAddress v owner) = true;
  deployErc20Token_deploys owner w w' :
    deployErc20Token owner w = Resolved tt w' -> deployed w' (erc20TokenAddress owner) = true;
  deployPaymasters_keeps owner w w' a :
    deployPaymasters owner w = Resolved tt w' -> deployed w a = true -> deployed w' a = true;
  deployErc20Token_keeps owner w w' a :
    deployErc20Token owner w = Resolved tt w' -> deployed w a = true -> deployed w' a = true;
  deployPaymasters_server owner : preserves server (deployPaymasters owner);
  deployErc20Token_server owner : preserves server (deployErc20Token owner)
}.

(** [console.log("Paymaster addresses: ", {paymaster06, paymaster07,
    paymaster08})]: Node's [util.inspect] prints the object one property
    per line (the three entries exceed its 80-column [breakLength]), each
    address as a single-quoted EIP-55 string. *)
Definition render_addresses `{Deployment} (addresses : list Z) : string :=
  match addresses with
  | [p06; p07; p08] =>
      "{" +:+ String.String "010"%char ("  paymaster06: '" +:+ checksum_address p06 +:+ "',"
      +:+ String.String "010"%char ("  paymaster07: '" +:+ checksum_address p07 +:+ "',"
      +:+ String.String "010"%char ("  paymaster08: '" +:+ checksum_address p08 +:+ "'"
      +:+ String.String "010"%char "}")))
  | _ => ""
  end.

Section Bootstrap.
Context `{Bootstrapper}.

(** Lines 58-72 of [main]: check, then print or deploy. *)
Definition bootstrap (owner : Z) (addresses : list Z) : M unit :=
  let* isDeployed := verifyDeployed addresses in
  if isDeployed
  then console_log ["Paymaster addresses: "; render_addresses addresses]
  else deployPaymasters owner ;;; deployErc20Token owner.
End Bootstrap.

(** ** A model of the collaborators *)

(** A contract deployment: a transaction through the node; afterwards the
    address holds the contract's runtime code. *)
Definition runtime_code : string := "0x6080604052".

Definition deploy_contract (name : string) (a : Z) : M unit :=
  fun w => if rpc_online w
           then Resolved tt (record_event (EvDeploy name a) (set_code a runtime_code w))
           else Rejected (HttpRequestError (anvil_url w)) w.

Definition version_name (v : EntryPointVersion) : string :=
  match v with V06 => "SingletonPaymasterV6" | V07 => "SingletonPaymasterV7" | V08 => "SingletonPaymasterV8" end.

Section Mock.
Context `{Deployment}.

Definition mock_deployPaymasters (owner : Z) : M unit :=
  afold (fun _ v => deploy_contract (version_name v) (getSingletonPaymasterAddress v owner))
    tt all_versions.

Definition mock_deployErc20Token (owner : Z) : M unit :=
  deploy_contract "TestERC20" (erc20TokenAddress owner).
End Mock.

(** ** Lemmas on the world's code *)

Lemma deployed_with_trace evs w a : deployed (with_trace evs w) a = deployed w a.
Proof. done. Qed.

Lemma deployed_record_event e w a : deployed (record_event e w) a = deployed w a.
Proof. done. Qed.

Lemma deployed_set_app f w a : deployed (set_app f w) a = deployed w a.
Proof. done. Qed.

Lemma deployed_set_runtime_code a w b :
  deployed (set_code a runtime_code w) b = if decide (a = b) then true else deployed w b.
Proof.
  unfold deployed. simpl. case_decide as Hab.
  - subst. rewrite lookup_insert_eq. done.
  - rewrite lookup_insert_ne by done. done.
Qed.

#[export] Hint Rewrite deployed_with_trace deployed_record_event deployed_set_app : pm_run.

Lemma deploy_contract_resolved name a w u w' :
  deploy_contract name a w = Resolved u w' ->
  w' = record_event (EvDeploy name a) (set_code a runtime_code w).
Proof. unfold deploy_contract. destruct (rpc_online w); congruence. Qed.

Lemma deploy_contract_server name a : preserves server (deploy_contract name a).
Proof. intros w. unfold deploy_contract. by destruct (rpc_online w). Qed.

Lemma deploy_contract_deployed name a w w' b :
  deploy_contract name a w = Resolved tt w' ->
  deployed w' b = if decide (a = b) then true else deployed w b.
Proof.
  intros ->%deploy_contract_resolved. rewrite deployed_record_event. apply deployed_set_runtime_code.
Qed.

(** The three deployments of [mock_deployPaymasters] run in order. *)
Lemma mock_deployPaymasters_resolved `{Deployment} owner w w' :
  mock_deployPaymasters owner w = Resolved tt w' ->
  forall b, deployed w' b =
    if decide (b ∈ map (fun v => getSingletonPaymasterAddress v owner) all_versions)
    then true else deployed w b.
Proof.
  unfold mock_deployPaymasters. simpl. unfold abind, aret.
  destruct (deploy_contract _ _ w) as [[] w1|] eqn:E1; [|discriminate].
  destruct (deploy_contract _ _ w1) as [[] w2|] eqn:E2; [|discriminate].
  destruct (deploy_contract _ _ w2) as [[] w3|] eqn:E3; [|discriminate].
  intros [= <-] b.
  rewrite (deploy_contract_deployed _ _ _ _ _ E3), (deploy_contract_deployed _ _ _ _ _ E2),
    (deploy_contract_deployed _ _ _ _ _ E1).
  repeat case_decide; set_solver.
Qed.

Lemma mock_deployPaymasters_server `{Deployment} owner : preserves server (mock_deployPaymasters owner).
Proof. apply preserves_afold. intros. apply deploy_contract_server. Qed.

Section MockLaws.
Context `{Deployment}.

Lemma mock_deployPaymasters_deploys owner w w' :
  mock_deployPaymasters owner w = Resolved tt w' ->
  forall v, deployed w' (getSingletonPaymasterAddress v owner) = true.
Proof.
  intros Hrun v. rewrite (mock_deployPaymasters_resolved _ _ _ Hrun).
  case_decide as Hin; [done|]. destruct Hin. apply list_elem_of_In, (in_map (fun v => getSingletonPaymasterAddress v owner)). destruct v; simpl; auto.
Qed.

Lemma mock_deployErc20Token_deploys owner w w' :
  mock_deployErc20Token owner w = Resolved tt w' -> deployed w' (erc20TokenAddress owner) = true.
Proof. intros Hrun. rewrite (deploy_contract_deployed _ _ _ _ _ Hrun). by case_decide. Qed.

Lemma mock_deployPaymasters_keeps owner w w' a :
  mock_deployPaymasters owner w = Resolved tt w' -> deployed w a = true -> deployed w' a = true.
Proof. intros Hrun Ha. rewrite (mock_deployPaymasters_resolved _ _ _ Hrun). by case_decide. Qed.

Lemma mock_deployErc20Token_keeps owner w w' a :
  mock_deployErc20Token owner w = Resolved tt w' -> deployed w a = true -> deployed w' a = true.
Proof. intros Hrun Ha. rewrite (deploy_contract_deployed _ _ _ _ _ Hrun). by case_decide. Qed.

Lemma mock_deployErc20Token_server owner : preserves server (mock_deployErc20Token owner).
Proof. apply deploy_contract_server. Qed.
End MockLaws.

#[export] Instance mock_bootstrapper `{Deployment} : Bootstrapper :=
  {| deployPaymasters_deploys := mock_deployPaymasters_deploys;
     deployErc20Token_deploys := mock_deployErc20Token_deploys;
     deployPaymasters_keeps := mock_deployPaymasters_keeps;
     deployErc20Token_keeps := mock_deployErc20Token_keeps;
     deployPaymasters_server := mock_deployPaymasters_server;
     deployErc20Token_server := mock_deployErc20Token_server |}.

(** ** [verifyDeployed] *)

Section CheckLemmas.
Context `{Deployment}.

Lemma verifyDeployed_step_online b a w :
  rpc_online w = true ->
  verifyDeployed_step b a w =
    Resolved (b && deployed w a)
      (with_trace (EvGetCode a :: (if deployed w a then [] else [EvLog [not_deployed_message a]])) w).
Proof.
  intros Hon. unfold verifyDeployed_step, abind, getCode. rewrite Hon.
  unfold deployed. simpl. destruct (bytecode_missing _); simpl.
  - unfold record_event. rewrite with_trace_app, andb_false_r. done.
  - rewrite andb_true_r. done.
Qed.

Lemma afold_verifyDeployed_step_online b addresses w :
  rpc_online w = true ->
  afold verifyDeployed_step b addresses w =
    Resolved (b && forallb (deployed w) addresses) (with_trace (verify_events w addresses) w).
Proof.
  revert b w. induction addresses as [|a addresses IH]; intros b w Hon; simpl.
  - rewrite andb_true_r, with_trace_nil. done.
  - rewrite (abind_resolved _ _ _ _ _ (verifyDeployed_step_online b a w Hon)).
    rewrite IH by exact Hon. rewrite with_trace_app, andb_assoc. done.
Qed.

Lemma verifyDeployed_preserves {T} (f : World -> T) addresses :
  (forall e w, f (record_event e w) = f w) -> preserves f (verifyDeployed addresses).
Proof.
  intros Hf. apply preserves_afold. intros acc a. unfold verifyDeployed_step.
  apply preserves_abind; [by apply getCode_preserves|]. intros code.
  destruct (bytecode_missing code); [apply preserves_abind; [by apply console_log_preserves|]|]; done.
Qed.

(** [verifyDeployed] in closed form: with the node up it returns whether
    every address carries code and records the queries and log lines;
    with the node down it rejects at the first query, if there is one. *)
Lemma verifyDeployed_spec addresses w :
  verifyDeployed addresses w =
    if rpc_online w
    then Resolved (forallb (deployed w) addresses) (with_trace (verify_events w addresses) w)
    else match addresses with
         | [] => Resolved true w
         | _ => Rejected (HttpRequestError (anvil_url w)) w
         end.
Proof.
  destruct (rpc_online w) eqn:Hon; [apply afold_verifyDeployed_step_online, Hon|].
  destruct addresses as [|a addresses]; [done|].
  unfold verifyDeployed. simpl afold. apply abind_rejected.
  unfold verifyDeployed_step. apply abind_rejected. unfold getCode. by rewrite Hon.
Qed.

(** C1. With the node answering, [verifyDeployed] resolves with [true]
    exactly when every address carries code, queries every address once
    and in order (no early exit, as the commented-out [process.exit]
    leaves the loop running), logs each missing address right after its
    query, and changes nothing else. *)
Theorem verifyDeployed_online addresses w :
  rpc_online w = true ->
  verifyDeployed addresses w =
    Resolved (forallb (deployed w) addresses) (with_trace (verify_events w addresses) w).
Proof. intros Hon. rewrite verifyDeployed_spec, Hon. done. Qed.

(** C5. With the node down, [verifyDeployed] on a non-empty list rejects
    at the first [getCode], with the world unchanged. *)
Theorem verifyDeployed_offline a addresses w :
  rpc_online w = false ->
  verifyDeployed (a :: addresses) w = Rejected (HttpRequestError (anvil_url w)) w.
Proof. intros Hoff. rewrite verifyDeployed_spec, Hoff. done. Qed.

End CheckLemmas.

(** ** The bootstrap branch *)

Lemma paymaster_address_in `{Deployment} v owner :
  getSingletonPaymasterAddress v owner ∈ paymaster_addresses owner.
Proof. destruct v; set_solver. Qed.

Lemma forallb_paymaster_addresses `{Deployment} (f : Z -> bool) owner :
  forallb f (paymaster_addresses owner) = true ->
  forall v, f (getSingletonPaymasterAddress v owner) = true.
Proof.
  intros Hall v. rewrite forallb_forall in Hall.
  apply Hall, list_elem_of_In, paymaster_address_in.
Qed.

Section BootstrapTheorems.
Context `{Bootstrapper}.

Lemma bootstrap_server owner addresses : preserves server (bootstrap owner addresses).
Proof.
  apply preserves_abind; [by apply verifyDeployed_preserves|]. intros [];
    repeat first [ apply preserves_abind; [|intros] | by apply console_log_preserves
                 | apply deployPaymasters_server | apply deployErc20Token_server ].
Qed.

(** A resolved bootstrap leaves code at every address of the table. *)
Lemma bootstrap_resolved owner w w' :
  bootstrap owner (paymaster_addresses owner) w = Resolved tt w' ->
  forallb (deployed w') (paymaster_addresses owner) = true.
Proof.
  unfold bootstrap. pose proof (verifyDeployed_spec (paymaster_addresses owner) w) as Hv.
  destruct (rpc_online w) eqn:Hon.
  2:{ cbn [paymaster_addresses] in Hv. by rewrite (abind_rejected _ _ _ _ _ Hv). }
  rewrite (abind_resolved _ _ _ _ _ Hv).
  destruct (forallb _ _) eqn:Hall.
  - intros Hrun. unfold console_log, amodify in Hrun. injection Hrun as <-.
    rewrite forallb_forall in Hall |- *. intros a Ha.
    rewrite deployed_record_event, deployed_with_trace. by apply Hall.
  - unfold abind. destruct (deployPaymasters owner _) as [[] w1|] eqn:Hp; [|discriminate].
    intros Hrun. apply forallb_forall. intros a Ha. eapply deployErc20Token_keeps; [exact Hrun|].
    unfold paymaster_addresses in Ha. simpl in Ha.
    destruct Ha as [<-|[<-|[<-|[]]]]; eapply deployPaymasters_deploys, Hp.
Qed.

(** C2. When [bootstrap] (lines 58-72) resolves, every paymaster of
    the registry carries code: the checked ones were present, or the
    collaborator deployed them and the token deployment removed none. *)
Theorem bootstrap_deploys owner w w' :
  bootstrap owner (paymaster_addresses owner) w = Resolved tt w' ->
  forall v, deployed w' (getSingletonPaymasterAddress v owner) = true.
Proof. intros Hrun. apply forallb_paymaster_addresses, (bootstrap_resolved _ _ _ Hrun). Qed.

(** C6. When the three paymasters already carry code, [bootstrap]
    only reads and logs: in particular it never deploys the ERC-20
    token, whether or not the token exists. *)
Theorem bootstrap_all_present owner w :
  rpc_online w = true ->
  forallb (deployed w) (paymaster_addresses owner) = true ->
  bootstrap owner (paymaster_addresses owner) w =
    Resolved tt (with_trace (verify_events w (paymaster_addresses owner) ++
                             [EvLog ["Paymaster addresses: ";
                                     render_addresses (paymaster_addresses owner)]]) w).
Proof.
  intros Hon Hall. unfold bootstrap. pose proof (verifyDeployed_spec (paymaster_addresses owner) w) as Hv.
  rewrite Hon in Hv. rewrite (abind_resolved _ _ _ _ _ Hv), Hall.
  unfold console_log, amodify, record_event. rewrite with_trace_app. done.
Qed.
End BootstrapTheorems.

(** ** Witnesses *)

Section Witnesses.
#[local] Existing Instance example_deployment.

Definition example_owner : Z := 0x70997970C51812dc3A010C7d01b50e0d17dc79C8.

Definition example_all_deployed : gmap Z string :=
  list_to_map (map (fun a => (a, runtime_code)) (paymaster_addresses example_owner)).

Lemma verifyDeployed_online_witness :
  rpc_online (example_world true {[7 := "0x60"; 8 := "0x"]}) = true /\
  verifyDeployed [7; 8; 9] (example_world true {[7 := "0x60"; 8 := "0x"]}) =
    Resolved false (with_trace (verify_events (example_world true {[7 := "0x60"; 8 := "0x"]}) [7; 8; 9])
                      (example_world true {[7 := "0x60"; 8 := "0x"]})).
Proof. split; [reflexivity|]. apply verifyDeployed_online. reflexivity. Defined.

Lemma verifyDeployed_offline_witness :
  rpc_online (example_world false ∅) = false /\
  verifyDeployed [7] (example_world false ∅) =
    Rejected (HttpRequestError (anvil_url (example_world false ∅))) (example_world false ∅).
Proof. split; [reflexivity|]. apply verifyDeployed_offline. reflexivity. Defined.

Definition example_bootstrapped : World :=
  outcome_state (bootstrap example_owner (paymaster_addresses example_owner) (example_world true ∅)).

Lemma bootstrap_deploys_witness :
  bootstrap example_owner (paymaster_addresses example_owner) (example_world true ∅) =
    Resolved tt example_bootstrapped /\
  deployed example_bootstrapped (getSingletonPaymasterAddress V07 example_owner) = true.
Proof.
  assert (Hrun : bootstrap example_owner (paymaster_addresses example_owner) (example_world true ∅) =
                 Resolved tt example_bootstrapped) by (vm_compute; reflexivity).
  split; [exact Hrun|]. exact (bootstrap_deploys _ _ _ Hrun V07).
Defined.

Lemma bootstrap_all_present_witness :
  rpc_online (example_world true example_all_deployed) = true /\
  forallb (deployed (example_world true example_all_deployed)) (paymaster_addresses example_owner) = true /\
  bootstrap example_owner (paymaster_addresses example_owner) (example_world true example_all_deployed) =
    Resolved tt (with_trace (verify_events (example_world true example_all_deployed)
                               (paymaster_addresses example_owner) ++
                             [EvLog ["Paymaster addresses: ";
                                     render_addresses (paymaster_addresses example_owner)]])
                   (example_world true example_all_deployed)) /\
  deployed (example_world true example_all_deployed) (erc20TokenAddress example_owner) = false.
Proof.
  assert (Hon : rpc_online (example_world true example_all_deployed) = true) by reflexivity.
  assert (Hall : forallb (deployed (example_world true example_all_deployed))
                   (paymaster_addresses example_owner) = true) by (vm_compute; reflexivity).
  split; [exact Hon|]. split; [exact Hall|].
  split; [exact (bootstrap_all_present example_owner _ Hon Hall)|].
  vm_compute. reflexivity.
Defined.
End Witnesses.
