(* ===== verification/Server.v ===== *)
(** * The entry point [main]: startup, registration and [listen]

    [main] (index.ts 30-91) composed from its steps: the log line (31),
    the Fastify instance (32), the configuration reads (33-34), the chain
    and wallet helpers of [./helpers/utils] (35-41), the viem clients
    (43-50), the address table and the bootstrap branch
    ([Bootstrap.bootstrap], 52-72), the CORS plugin (74-77), the JSON-RPC
    route with the handler [createRpcHandler] builds from the wallet
    (79-84), the liveness route (86-88) and [app.listen] (90); [run_main]
    is line 93, [main()] with no [catch].  [getChain] and
    [getAnvilWalletClient] are not under [src/]; the class [Helpers]
    states what [main] relies on (the wallet is Anvil's account at the
    given index, with its key; neither touches the server), and
    [anvil_helpers] meets it.

    [listen] binds the port ([take_port]) and rejects when it is taken.
    The theorems say that a resolved [main] has every paymaster deployed
    and registered its routes and started listening only after the
    bootstrap, that a rejected [main] leaves no listening server, that a
    second instance on the same host ends with the port-in-use error,
    and how the clients' URLs follow the environment. *)

From S2P Require Import Prelude Bytes Registry World Bootstrap.

Open Scope Z_scope.

(** [await getChain()], line 35: viem's [Chain]; [chain_rpc_url] is
    [chain.rpcUrls.default.http[0]]. *)
Record ChainInfo := mkChainInfo { chain_number : Z; chain_name : string; chain_rpc_url : string }.

(** ** The viem clients, lines 43-50

    A client is the RPC URL its [http] transport posts to and its chain.
    Building one does no I/O. *)
Record Client := mkClient { client_url : string; client_chain : ChainInfo }.

(** [http(url)]: the transport posts to [url || chain.rpcUrls.default.http[0]],
    so an undefined or empty URL falls back to the chain's default RPC URL. *)
Definition http_transport (url : option string) (chain : ChainInfo) : string :=
  match url with
  | Some u => if String.eqb u "" then chain_rpc_url chain else u
  | None => chain_rpc_url chain
  end.

(** [createPublicClient({transport: http(anvilRpc), chain})], lines 43-46. *)
Definition createPublicClient (anvilRpc : option string) (chain : ChainInfo) : Client :=
  mkClient (http_transport anvilRpc chain) chain.

(** [createBundlerClient({chain, transport: http(altoRpc)})], lines 47-50. *)
Definition createBundlerClient (altoRpc : option string) (chain : ChainInfo) : Client :=
  mkClient (http_transport altoRpc chain) chain.

(** The first accounts of Anvil's default mnemonic and their keys. *)
Definition anvil_account (index : nat) : Z :=
  match index with
  | 0%nat => 0xf39Fd6e51aad88F6F4ce6aB8827279cffFb92266
  | 1%nat => 0x70997970C51812dc3A010C7d01b50e0d17dc79C8
  | _ => 0x3C44CdDdB6a900fa2b585dd299e03d12FA4293BC
  end.

Definition anvil_key (index : nat) : Z :=
  match index with
  | 0%nat => 0xac0974bec39a17e36ba4a6b4d238ff944bacb478cbed5efcae784d7bf4f2ff80
  | 1%nat => 0x59c6995e998f97a5a0044966f0945389dc9e86dae88c7a8412f4603b6b78690d
  | _ => 0x5de4111afa1a4b94908f83103eb1f1706367c2e68ca870fc3fb9a804cdab365a
  end.

(** The wallet client: its account's address and the key it signs with. *)
Record Wallet := mkWallet { wallet_address : Z; wallet_key : Z }.

Class Helpers := {
  getChain : M ChainInfo;
  getAnvilWalletClient : option string -> nat -> M Wallet;
  getAnvilWalletClient_account url index w a w' :
    getAnvilWalletClient url index w = Resolved a w' -> a = mkWallet (anvil_account index) (anvil_key index);
  getChain_server : preserves server getChain;
  getAnvilWalletClient_server url index : preserves server (getAnvilWalletClient url index)
}.

(** ** Registration and listening *)

(** [const app = Fastify({})], line 32: a fresh instance. *)
Definition create_app : M unit := amodify (set_app (fun _ => fastify_new)).

(** [app.register(cors, {origin: "*", methods: ["POST", "GET", "OPTIONS"]})]. *)
Definition cors_options : CorsOptions := mkCorsOptions "*" [POST; GET; OPTIONS].

Definition register_cors : M unit :=
  amodify (fun w => record_event (EvRegister "@fastify/cors")
                      (set_app (fun a => mkApp (Some cors_options) (app_routes a) (app_listening a)) w)).

(** [app.post(path, {}, handler)] and [app.get(path, handler)]. *)
Definition add_route (m : HttpMethod) (path : string) (h : Handler) : M unit :=
  amodify (fun w => record_event (EvRoute m path)
                      (set_app (fun a => mkApp (app_cors a) (app_routes a ++ [mkRoute m path h])
                                           (app_listening a)) w)).

(** Lines 79-84: [createRpcHandler({bundler, publicClient, paymasterSigner:
    walletClient})] then [app.post("/", {}, rpcHandler)]. *)
Definition register_rpc (wallet : Wallet) : M unit :=
  add_route POST "/" (RpcHandler (wallet_address wallet) (wallet_key wallet)).

(** Lines 86-88: [app.get("/ping", ...)]. *)
Definition register_ping : M unit := add_route GET "/ping" PingHandler.

(** [await app.listen({host, port})]: rejects when the port is taken
    ([EADDRINUSE]); otherwise binds the port and starts serving. *)
Definition listen (host : string) (port : Z) : M unit :=
  fun w => if bool_decide (port ∈ ports_taken w)
           then Rejected (ListenError port) w
           else Resolved tt (record_event (EvListen host port)
                  (set_app (fun a => mkApp (app_cors a) (app_routes a) (Some (host, port)))
                     (take_port port w))).

Definition main_routes (wallet : Wallet) : list Route :=
  [mkRoute POST "/" (RpcHandler (wallet_address wallet) (wallet_key wallet)); mkRoute GET "/ping" PingHandler].

Definition serve_events : list Event :=
  [EvRegister "@fastify/cors"; EvRoute POST "/"; EvRoute GET "/ping"; EvListen "0.0.0.0" 3000].

(** What [startup] hands on: the wallet ([paymasterSigner]) and the two
    clients, the arguments of [createRpcHandler] (lines 79-83). *)
Record Started := mkStarted { started_wallet : Wallet; started_public : Client; started_bundler : Client }.

(** What is left of the process once [main] has settled. *)
Inductive Process :=
| Serving (w : World)
| Crashed (e : Error) (w : World).

Section Main.
Context `{Bootstrapper} `{Helpers}.

(** The startup steps before the server is set up, lines 31-72. *)
Definition startup : M Started :=
  console_log ["Starting mock singleton paymaster..."] ;;;
  create_app ;;;
  let* anvilRpc := read_env "ANVIL_RPC" in
  let* altoRpc := read_env "ALTO_RPC" in
  let* chain := getChain in
  let* walletClient := getAnvilWalletClient anvilRpc 1 in
  console_log ["Wallet client created: "; checksum_address (wallet_address walletClient)] ;;;
  let publicClient := createPublicClient anvilRpc chain in
  let bundler := createBundlerClient altoRpc chain in
  let owner := wallet_address walletClient in
  bootstrap owner (paymaster_addresses owner) ;;;
  aret (mkStarted walletClient publicClient bundler).

(** The server set-up, lines 74-90. *)
Definition serve (wallet : Wallet) : M unit :=
  register_cors ;;; register_rpc wallet ;;; register_ping ;;; listen "0.0.0.0" 3000.

(** [main], lines 30-91. *)
Definition main : M unit :=
  let* started := startup in
  serve (started_wallet started).

(** Line 93, [main();] with no [catch]: the process serves when [main]
    resolves; a rejection is unhandled and Node ends the process. *)
Definition run_main (w : World) : Process :=
  match main w with
  | Resolved _ w' => Serving w'
  | Rejected e w' => Crashed e w'
  end.
End Main.

(** ** A model of the helpers *)

Definition anvil_getAnvilWalletClient (url : option string) (index : nat) : M Wallet :=
  aret (mkWallet (anvil_account index) (anvil_key index)).

Lemma anvil_getAnvilWalletClient_account url index w a w' :
  anvil_getAnvilWalletClient url index w = Resolved a w' -> a = mkWallet (anvil_account index) (anvil_key index).
Proof. by intros [= <- _]. Qed.

(** viem's [foundry] chain. *)
Definition anvil_chain : ChainInfo := mkChainInfo 31337 "Foundry" "http://127.0.0.1:8545".

Definition anvil_helpers : Helpers := {|
  getChain := aret anvil_chain;
  getAnvilWalletClient := anvil_getAnvilWalletClient;
  getAnvilWalletClient_account := anvil_getAnvilWalletClient_account;
  getChain_server := preserves_aret server _;
  getAnvilWalletClient_server := fun _ _ => preserves_aret server _
|}.

(** ** The server set-up *)

(** The world once CORS and both routes are registered. *)
Definition registered (wallet : Wallet) (w : World) : World :=
  mkWorld (env w) (rpc_online w) (chain_code w)
    (mkApp (Some cors_options) (app_routes (app w) ++ main_routes wallet) (app_listening (app w)))
    (ports_taken w) (trace w ++ take 3 serve_events).

(** ... and listening on [0.0.0.0:3000]. *)
Definition listening (wallet : Wallet) (w : World) : World :=
  mkWorld (env w) (rpc_online w) (chain_code w)
    (mkApp (Some cors_options) (app_routes (app w) ++ main_routes wallet) (Some ("0.0.0.0", 3000)))
    (3000 :: ports_taken w) (trace w ++ serve_events).

(** The registration steps on a world given by its fields. *)
Lemma register_cors_spec e o c co rs l p t :
  register_cors (mkWorld e o c (mkApp co rs l) p t) =
    Resolved tt (mkWorld e o c (mkApp (Some cors_options) rs l) p (t ++ [EvRegister "@fastify/cors"])).
Proof. reflexivity. Qed.

Lemma add_route_spec m path h e o c co rs l p t :
  add_route m path h (mkWorld e o c (mkApp co rs l) p t) =
    Resolved tt (mkWorld e o c (mkApp co (rs ++ [mkRoute m path h]) l) p (t ++ [EvRoute m path])).
Proof. reflexivity. Qed.

Lemma serve_spec wallet w :
  serve wallet w = if bool_decide (3000 ∈ ports_taken w)
                   then Rejected (ListenError 3000) (registered wallet w)
                   else Resolved tt (listening wallet w).
Proof.
  destruct w as [e o c [co rs l] p t]. unfold serve, register_rpc, register_ping.
  rewrite (abind_resolved _ _ _ _ _ (register_cors_spec _ _ _ _ _ _ _ _)),
    (abind_resolved _ _ _ _ _ (add_route_spec _ _ _ _ _ _ _ _ _ _ _)),
    (abind_resolved _ _ _ _ _ (add_route_spec _ _ _ _ _ _ _ _ _ _ _)).
  unfold listen, registered, listening, record_event, with_trace, set_app, take_port. cbn.
  rewrite <- !app_assoc. by case_bool_decide.
Qed.

Section MainTheorems.
Context `{Bootstrapper} `{Helpers}.

(** Every step of [startup] after line 32 leaves the server state alone. *)
Ltac startup_frame :=
  repeat (apply preserves_abind; [first [by apply console_log_preserves | apply read_env_preserves
          | apply getChain_server | apply getAnvilWalletClient_server | apply bootstrap_server
          | apply preserves_aret]|intros]);
  apply preserves_aret.

(** [startup] leaves a fresh Fastify app and the host's ports, however it
    ends: nothing after line 32 touches them. *)
Lemma startup_server w : server (outcome_state (startup w)) = (fastify_new, ports_taken w).
Proof.
  unfold startup, console_log at 1, create_app. rewrite abind_amodify. cbv beta.
  rewrite abind_amodify. cbv beta.
  match goal with |- server (outcome_state (?c ?s)) = _ =>
    assert (Hc : preserves server c) by startup_frame; rewrite (Hc s) end.
  reflexivity.
Qed.

Lemma startup_resolved w st w' :
  startup w = Resolved st w' ->
  started_wallet st = mkWallet (anvil_account 1) (anvil_key 1) /\
  forall v, deployed w' (getSingletonPaymasterAddress v (anvil_account 1)) = true.
Proof.
  unfold startup. intros Hrun. inv_bind Hrun. injection Hrun as <- <-.
  match goal with Hw : getAnvilWalletClient _ _ _ = Resolved ?a _ |- _ =>
    apply getAnvilWalletClient_account in Hw; subst a end.
  split; [done|].
  match goal with Hb : bootstrap _ _ _ = Resolved ?u _ |- _ =>
    destruct u; exact (forallb_paymaster_addresses _ _ (bootstrap_resolved _ _ _ Hb)) end.
Qed.

(** The world a resolved [main] leaves: [startup]'s, with the routes of
    the wallet registered on the fresh app, listening on port 3000. *)
Lemma main_resolved w w' :
  main w = Resolved tt w' ->
  exists st w1, startup w = Resolved st w1 /\
    started_wallet st = mkWallet (anvil_account 1) (anvil_key 1) /\
    3000 ∉ ports_taken w1 /\ w' = listening (started_wallet st) w1.
Proof.
  unfold main. intros Hrun. apply abind_Resolved_inv in Hrun as (st & w1 & Hs & Hserve).
  rewrite serve_spec in Hserve. case_bool_decide; [discriminate|]. injection Hserve as <-.
  exists st, w1. by destruct (startup_resolved _ _ _ Hs) as [-> _].
Qed.

Lemma startup_app w st w1 : startup w = Resolved st w1 -> app w1 = fastify_new.
Proof. intros Hs. pose proof (startup_server w) as Hsv. rewrite Hs in Hsv. by injection Hsv. Qed.

(** A resolved [main] leaves every paymaster of Anvil account 1 deployed. *)
Lemma main_deploys w w' :
  main w = Resolved tt w' -> forall v, deployed w' (getSingletonPaymasterAddress v (anvil_account 1)) = true.
Proof.
  intros Hrun v. destruct (main_resolved _ _ Hrun) as (st & w1 & Hs & _ & _ & ->).
  exact (proj2 (startup_resolved _ _ _ Hs) v).
Qed.

(** The Fastify app a resolved [main] leaves: CORS and the two routes of
    the wallet of Anvil account 1, listening on [0.0.0.0:3000]. *)
Lemma main_app w w' :
  main w = Resolved tt w' ->
  app w' = mkApp (Some cors_options) (main_routes (mkWallet (anvil_account 1) (anvil_key 1)))
             (Some ("0.0.0.0", 3000)).
Proof.
  intros Hrun. destruct (main_resolved _ _ Hrun) as (st & w1 & Hs & Hwal & _ & ->).
  cbn. by rewrite (startup_app _ _ _ Hs), Hwal.
Qed.

(** C3. Bootstrap happens before serve: when [main] resolves, all three
    paymasters of the signer (Anvil account 1) carry code, the server
    listens on [0.0.0.0:3000], and the last effects of the run are the CORS
    registration, the two routes and [listen], in that order. *)
Theorem main_serves_after_bootstrap w w' :
  main w = Resolved tt w' ->
  (forall v, deployed w' (getSingletonPaymasterAddress v (anvil_account 1)) = true) /\
  app_listening (app w') = Some ("0.0.0.0", 3000) /\
  exists pre, trace w' = pre ++ serve_events.
Proof.
  intros Hrun. split; [exact (main_deploys _ _ Hrun)|]. split; [by rewrite (main_app _ _ Hrun)|].
  destruct (main_resolved _ _ Hrun) as (st & w1 & _ & _ & _ & ->). by eexists.
Qed.

(** C7. A [main] that rejects (the node is down, a collaborator fails,
    the port is taken) leaves a server that does not listen. *)
Theorem main_rejected_not_listening w e w' :
  main w = Rejected e w' -> app_listening (app w') = None.
Proof.
  intros Hrun. unfold main in Hrun.
  apply abind_Rejected_inv in Hrun as [Hs|(st & w1 & Hs & Hserve)].
  - pose proof (startup_server w) as Hsv. rewrite Hs in Hsv. by injection Hsv as ->.
  - rewrite serve_spec in Hserve. case_bool_decide; [|discriminate]. injection Hserve as _ <-.
    cbn. by rewrite (startup_app _ _ _ Hs).
Qed.

(** C10. A second instance on the same host: once one [main] has resolved,
    another process started on a host with the same bound ports gets
    through its startup steps, registers its routes on its own fresh app,
    and then [listen] rejects with the port-in-use error; [main()] has no
    [catch], so that process ends. *)
Theorem second_instance_crashes w w' w2 st w1 :
  main w = Resolved tt w' -> ports_taken w2 = ports_taken w' ->
  startup w2 = Resolved st w1 ->
  run_main w2 = Crashed (ListenError 3000) (registered (started_wallet st) w1).
Proof.
  intros Hrun Hports Hs. unfold run_main, main at 1.
  rewrite (abind_resolved _ _ _ _ _ Hs), serve_spec, bool_decide_true; [done|].
  pose proof (startup_server w2) as Hsv. rewrite Hs in Hsv. injection Hsv as _ ->.
  rewrite Hports. destruct (main_resolved _ _ Hrun) as (st' & w1' & _ & _ & _ & ->).
  cbn. set_solver.
Qed.

(** C11. The clients of lines 43-50 post to [ANVIL_RPC] and [ALTO_RPC]
    when the environment sets them to a non-empty URL.  An unset or empty
    variable is not an error ([as string] checks nothing): viem's
    [url || default] makes its client post to the chain's default RPC
    URL, so without [ALTO_RPC] the bundler client talks to the chain's
    node, not to a bundler. *)
Theorem startup_clients w st w' :
  startup w = Resolved st w' ->
  let pc := started_public st in let bc := started_bundler st in
  client_chain pc = client_chain bc /\
  (forall u, env w !! "ANVIL_RPC" = Some u -> u <> "" -> client_url pc = u) /\
  (env w !! "ANVIL_RPC" = None \/ env w !! "ANVIL_RPC" = Some "" ->
     client_url pc = chain_rpc_url (client_chain pc)) /\
  (forall u, env w !! "ALTO_RPC" = Some u -> u <> "" -> client_url bc = u) /\
  (env w !! "ALTO_RPC" = None \/ env w !! "ALTO_RPC" = Some "" ->
     client_url bc = chain_rpc_url (client_chain bc)).
Proof.
  unfold startup. intros Hrun. inv_bind Hrun. injection Hrun as <- _. cbn zeta.
  unfold console_log, create_app, amodify, read_env in *. simplify_eq. cbn.
  split; [done|].
  split_and!; [intros u Hu Hne|intros [Hu|Hu]|intros u Hu Hne|intros [Hu|Hu]]; rewrite Hu;
    cbn; try done; by rewrite (proj2 (String.eqb_neq _ _) Hne).
Qed.
End MainTheorems.

(** ** Witnesses *)

Section Witnesses.
#[local] Existing Instance example_deployment.
#[local] Existing Instance anvil_helpers.

Definition example_started : World := outcome_state (main (example_world true ∅)).

Lemma example_main_resolves : main (example_world true ∅) = Resolved tt example_started.
Proof. vm_compute. reflexivity. Qed.

Lemma main_serves_after_bootstrap_witness :
  main (example_world true ∅) = Resolved tt example_started /\
  deployed example_started (getSingletonPaymasterAddress V08 (anvil_account 1)) = true.
Proof.
  split; [exact example_main_resolves|].
  exact (proj1 (main_serves_after_bootstrap _ _ example_main_resolves) V08).
Defined.

Lemma main_rejected_not_listening_witness :
  main (example_world false ∅) =
    Rejected (HttpRequestError "") (outcome_state (main (example_world false ∅))) /\
  app_listening (app (outcome_state (main (example_world false ∅)))) = None.
Proof.
  assert (Hrun : main (example_world false ∅) =
                 Rejected (HttpRequestError "") (outcome_state (main (example_world false ∅))))
    by (vm_compute; reflexivity).
  split; [exact Hrun|]. exact (main_rejected_not_listening _ _ _ Hrun).
Defined.

(** A second process on the host of [example_started]: its own world,
    with the ports the first instance bound. *)
Definition example_second : World :=
  mkWorld ∅ true (chain_code example_started) fastify_new (ports_taken example_started) [].

Definition example_second_started : Started :=
  mkStarted (mkWallet (anvil_account 1) (anvil_key 1)) (createPublicClient None anvil_chain)
    (createBundlerClient None anvil_chain).

Lemma second_instance_crashes_witness :
  main (example_world true ∅) = Resolved tt example_started /\
  ports_taken example_second = ports_taken example_started /\
  startup example_second = Resolved example_second_started (outcome_state (startup example_second)) /\
  run_main example_second =
    Crashed (ListenError 3000)
      (registered (started_wallet example_second_started) (outcome_state (startup example_second))).
Proof.
  assert (Hs : startup example_second = Resolved example_second_started (outcome_state (startup example_second)))
    by (vm_compute; reflexivity).
  assert (Hp : ports_taken example_second = ports_taken example_started) by reflexivity.
  split; [exact example_main_resolves|]. split; [exact Hp|]. split; [exact Hs|].
  exact (second_instance_crashes (example_world true ∅) example_started example_second
           example_second_started (outcome_state (startup example_second)) example_main_resolves Hp Hs).
Defined.

Lemma startup_clients_witness :
  startup (example_world true ∅) =
    Resolved example_second_started (outcome_state (startup (example_world true ∅))) /\
  client_url (started_bundler example_second_started) = "http://127.0.0.1:8545".
Proof.
  assert (Hs : startup (example_world true ∅) =
    Resolved example_second_started (outcome_state (startup (example_world true ∅)))) by (vm_compute; reflexivity).
  split; [exact Hs|].
  destruct (startup_clients _ _ _ Hs) as (_ & _ & _ & _ & Hb). apply Hb. by left.
Defined.
End Witnesses.
