(* ===== verification/Signature.v ===== *)
(** * Signature Engine: sponsorship claims, their encoding and signature

    The relay of [./relay] (not under [src/]) signs, for each request, a
    sponsorship claim that the paymaster contract re-checks on chain.  This
    file models the specification's Signature Engine (sections 3 and 4.2):
    - [SponsorshipClaim] and [SponsorshipMode];
    - the on-chain [paymasterAndData] of each entry-point version
      ([paymasterAndData]) and the bytes the signature covers
      ([encodeClaim]: the same fields without the signature, followed by
      the operation hash); entry points 0.7 and 0.8 share the packed
      user-operation layout (paymaster, two 16-byte gas limits, data), 0.6
      has no paymaster gas fields;
    - the validity window ([validity_window]): now minus the clock-skew
      tolerance, now plus the sponsorship TTL;
    - the signing key as the class [Signer] (ECDSA sign/recover with the
      recovery law), and EIP-191's signed-message digest;
    - the contract's side, [verifyPaymasterData]: it decodes
      [paymasterAndData], rebuilds the claim with its own address and the
      operation hash the entry point computed, and recovers the signer.
    The theorems: the decoder inverts the encoder, the relay's signature
    verifies on chain (the specification's "no representation drift"
    invariant), the 0.6 layout differs from the others, and the window's
    width and wrap-around at 48 bits. *)

From S2P Require Import Prelude Bytes Registry.
From Stdlib Require Import Ascii.

Open Scope Z_scope.

Inductive SponsorshipMode := SponsorAll | SponsorGasOnly.

#[export] Instance SponsorshipMode_eq_dec : EqDecision SponsorshipMode.
Proof. solve_decision. Defined.

Definition mode_byte (m : SponsorshipMode) : Byte.byte :=
  match m with SponsorAll => Byte.x00 | SponsorGasOnly => Byte.x01 end.

Definition mode_of_byte (b : Byte.byte) : option SponsorshipMode :=
  if Byte.eqb b Byte.x00 then Some SponsorAll
  else if Byte.eqb b Byte.x01 then Some SponsorGasOnly else None.

Record SponsorshipClaim := mkClaim {
  paymaster : Z;                      (** address, 20 bytes *)
  validAfter : Z;                     (** uint48 *)
  validUntil : Z;                     (** uint48 *)
  operationHash : Z;                  (** bytes32 *)
  mode : SponsorshipMode;
  paymasterVerificationGasLimit : Z;  (** uint128, entry points 0.7 and 0.8 *)
  paymasterPostOpGasLimit : Z         (** uint128, entry points 0.7 and 0.8 *)
}.

(** ** Encodings *)

(** The paymaster-specific data before the signature: mode, then the
    window, [validUntil] first. *)
Definition data_fields (c : SponsorshipClaim) : bytes :=
  [mode_byte (mode c)] ++ be_bytes 6 (validUntil c) ++ be_bytes 6 (validAfter c).

(** The static part of [paymasterAndData]: everything but the signature. *)
Definition paymaster_fields (v : EntryPointVersion) (c : SponsorshipClaim) : bytes :=
  let data := data_fields c in
  match v with
  | V06 => be_bytes 20 (paymaster c) ++ data
  | V07 => be_bytes 20 (paymaster c) ++ be_bytes 16 (paymasterVerificationGasLimit c)
             ++ be_bytes 16 (paymasterPostOpGasLimit c) ++ data
  | V08 => be_bytes 20 (paymaster c) ++ be_bytes 16 (paymasterVerificationGasLimit c)
             ++ be_bytes 16 (paymasterPostOpGasLimit c) ++ data
  end.

Definition paymasterAndData (v : EntryPointVersion) (c : SponsorshipClaim) (signature : bytes) : bytes :=
  paymaster_fields v c ++ signature.

(** [encodeClaim(claim, version)]: the bytes whose hash is signed. *)
Definition encodeClaim (v : EntryPointVersion) (c : SponsorshipClaim) : bytes :=
  paymaster_fields v c ++ be_bytes 32 (operationHash c).

(** A claim fits version [v] when every field fits its width, and a 0.6
    claim carries no paymaster gas limits. *)
Definition claim_fits (v : EntryPointVersion) (c : SponsorshipClaim) : Prop :=
  0 <= paymaster c < 2 ^ 160 /\ 0 <= validAfter c < 2 ^ 48 /\ 0 <= validUntil c < 2 ^ 48 /\
  0 <= paymasterVerificationGasLimit c < 2 ^ 128 /\ 0 <= paymasterPostOpGasLimit c < 2 ^ 128 /\
  (v = V06 -> paymasterVerificationGasLimit c = 0 /\ paymasterPostOpGasLimit c = 0).

(** ** Decoding, as the paymaster contract reads [paymasterAndData] *)

Definition read_uint (n : nat) (bs : bytes) : option (Z * bytes) :=
  if (n <=? length bs)%nat then Some (be_value (take n bs), drop n bs) else None.

Definition read_mode (bs : bytes) : option (SponsorshipMode * bytes) :=
  match bs with
  | b :: rest => m ← mode_of_byte b; Some (m, rest)
  | [] => None
  end.

(** The fields and the trailing signature; the operation hash is not in
    [paymasterAndData], the entry point supplies it. *)
Definition decodePaymasterAndData (v : EntryPointVersion) (opHash : Z) (bs : bytes)
    : option (SponsorshipClaim * bytes) :=
  '(pm, r1) ← read_uint 20 bs;
  '(gas, r2) ← (match v with
                | V06 => Some ((0, 0), r1)
                | V07 | V08 =>
                    '(vg, r) ← read_uint 16 r1; '(pg, r') ← read_uint 16 r; Some ((vg, pg), r')
                end);
  '(m, r3) ← read_mode r2;
  '(vu, r4) ← read_uint 6 r3;
  '(va, signature) ← read_uint 6 r4;
  Some (mkClaim pm va vu opHash m gas.1 gas.2, signature).

(** ** Validity window *)

Record RelayConfig := mkRelayConfig {
  sponsorship_ttl : Z;
  clock_skew : Z;
  default_verification_gas : Z;
  default_postop_gas : Z;
  chain_id : Z
}.

(** [validAfter = now - skew], [validUntil = now + ttl], computed per
    request. *)
Definition validity_window (cfg : RelayConfig) (now : Z) : Z * Z :=
  (now - clock_skew cfg, now + sponsorship_ttl cfg).

(** ** Signing *)

Class Signer := {
  ecsign : Z -> Z -> bytes;
  ecrecover : Z -> bytes -> option Z;
  key_address : Z -> Z;
  ecrecover_ecsign key digest : ecrecover digest (ecsign key digest) = Some (key_address key);
  length_ecsign key digest : length (ecsign key digest) = 65%nat
}.

Definition bytes_of_string (s : string) : bytes :=
  map (fun c => byte_of_Z (Z.of_nat (nat_of_ascii c))) (String.list_ascii_of_string s).

(** EIP-191: [keccak256("\x19Ethereum Signed Message:\n32" ++ hash)]. *)
Definition eth_signed_message_prefix : bytes :=
  Byte.x19 :: bytes_of_string "Ethereum Signed Message:" ++ [Byte.x0a] ++ bytes_of_string "32".

Section Signing.
Context `{Deployment} `{Signer}.

Definition claim_digest (v : EntryPointVersion) (c : SponsorshipClaim) : Z :=
  keccak256 (eth_signed_message_prefix ++ be_bytes 32 (keccak256 (encodeClaim v c))).

(** [sign(bytes, signingKey)] over the claim's digest. *)
Definition signClaim (v : EntryPointVersion) (key : Z) (c : SponsorshipClaim) : bytes :=
  ecsign key (claim_digest v c).

(** What [validatePaymasterUserOp] of the paymaster at [self] returns:
    [None] when it reverts on malformed data, else whether the signature
    failed and the window the entry point will enforce. *)
Record ValidationData := mkValidationData { sigFailed : bool; vd_validUntil : Z; vd_validAfter : Z }.

Definition verifyPaymasterData (v : EntryPointVersion) (self opHash verifying_signer : Z) (bs : bytes)
    : option ValidationData :=
  '(c, signature) ← decodePaymasterAndData v opHash bs;
  if bool_decide (paymaster c = self) then
    Some (mkValidationData
            (negb (bool_decide (ecrecover (claim_digest v c) signature = Some verifying_signer)))
            (validUntil c) (validAfter c))
  else None.
End Signing.

(** The entry point's time check on the returned window; [validUntil = 0]
    means no expiry. *)
Definition valid_at (d : ValidationData) (t : Z) : bool :=
  negb (sigFailed d) && (vd_validAfter d <=? t) && ((vd_validUntil d =? 0) || (t <=? vd_validUntil d)).

(** ** Reading back what was written *)

Lemma read_uint_app n x rest :
  read_uint n (be_bytes n x ++ rest) = Some (x mod 2 ^ (8 * Z.of_nat n), rest).
Proof.
  unfold read_uint. rewrite length_app, length_be_bytes.
  replace (n <=? n + length rest)%nat with true by (symmetry; apply Nat.leb_le; lia).
  rewrite take_app_length', drop_app_length', be_value_bytes by (symmetry; apply length_be_bytes).
  done.
Qed.

Lemma read_mode_app m rest : read_mode (mode_byte m :: rest) = Some (m, rest).
Proof. by destruct m. Qed.

#[export] Hint Rewrite read_uint_app read_mode_app : pm_run.

(** The claim as the contract sees it: every field reduced to its width,
    and no gas fields in a 0.6 claim. *)
Definition wrap_claim (v : EntryPointVersion) (c : SponsorshipClaim) : SponsorshipClaim :=
  let gas x := match v with V06 => 0 | _ => x mod 2 ^ 128 end in
  mkClaim (paymaster c mod 2 ^ 160) (validAfter c mod 2 ^ 48) (validUntil c mod 2 ^ 48)
    (operationHash c) (mode c) (gas (paymasterVerificationGasLimit c)) (gas (paymasterPostOpGasLimit c)).

(** The decoder reads back every field of the layout, each wrapped at
    its width, and the signature as the rest of the data. *)
Lemma decode_encoded v c signature :
  decodePaymasterAndData v (operationHash c) (paymasterAndData v c signature) =
    Some (wrap_claim v c, signature).
Proof.
  unfold decodePaymasterAndData, paymasterAndData, paymaster_fields, data_fields.
  destruct v; rewrite <- !app_assoc; cbn [app];
    repeat (progress rewrite ?read_uint_app, ?read_mode_app; cbn [mbind option_bind]);
    reflexivity.
Qed.

Lemma wrap_claim_fits v c : claim_fits v c -> wrap_claim v c = c.
Proof.
  intros (Hp & Ha & Hu & Hg & Ho & H06). destruct c as [p a u h m g o]; simpl in *.
  unfold wrap_claim; simpl. rewrite !Z.mod_small by lia.
  destruct v; [destruct H06 as [-> ->]|..]; rewrite ?Z.mod_small by lia; done.
Qed.

(** Round trip of the claim encoding: for a claim whose fields fit
    their slots, the contract's decoder, given the operation hash the
    entry point computed, reads back exactly the claim the relay encoded
    and the signature appended to it. *)
Lemma decode_paymasterAndData v c signature :
  claim_fits v c ->
  decodePaymasterAndData v (operationHash c) (paymasterAndData v c signature) = Some (c, signature).
Proof. intros Hfit. by rewrite decode_encoded, wrap_claim_fits. Qed.

Lemma length_paymaster_fields v c :
  length (paymaster_fields v c) = match v with V06 => 33%nat | _ => 65%nat end.
Proof. destruct v; unfold paymaster_fields, data_fields; rewrite !length_app, !length_be_bytes; done. Qed.

Lemma length_encodeClaim v c :
  length (encodeClaim v c) = match v with V06 => 65%nat | _ => 97%nat end.
Proof. unfold encodeClaim. rewrite length_app, length_paymaster_fields, length_be_bytes. by destruct v. Qed.

(** Entry point 0.6's claim layout is never the layout of 0.7 or 0.8:
    the encodings differ for every pair of claims.  (0.7 and 0.8 share the
    packed user-operation layout.) *)
Lemma encodeClaim_v06_distinct v c c' :
  v <> V06 -> encodeClaim V06 c <> encodeClaim v c'.
Proof.
  intros Hv Heq. apply (f_equal length) in Heq. rewrite !length_encodeClaim in Heq.
  destruct v; [done|discriminate|discriminate].
Qed.

(** ** The relay's signature verifies on chain *)

Section Verification.
Context `{Deployment} `{Signer}.

(** What the contract answers for data the relay signed with [key],
    checked against the configured [signer]: the claim's window, with
    [sigFailed] set exactly when [key] is not the signer's key. *)
Lemma verify_signed v key signer c :
  claim_fits v c ->
  verifyPaymasterData v (paymaster c) (operationHash c) signer (paymasterAndData v c (signClaim v key c))
  = Some (mkValidationData (negb (bool_decide (key_address key = signer))) (validUntil c) (validAfter c)).
Proof.
  intros Hfit. unfold verifyPaymasterData.
  rewrite decode_encoded, wrap_claim_fits by exact Hfit. simpl.
  rewrite bool_decide_eq_true_2 by done. unfold signClaim. rewrite ecrecover_ecsign.
  do 2 case_bool_decide; congruence.
Qed.

(** No representation drift: for a claim that fits its version, the
    paymaster contract at the claim's address, given the operation hash
    the entry point computed, decodes [paymasterAndData] carrying the
    relay's signature, rebuilds byte for byte the encoding that was
    signed, recovers the signer, and returns the claim's window with
    [sigFailed = false]. *)
Lemma signClaim_verifies v key c :
  claim_fits v c ->
  verifyPaymasterData v (paymaster c) (operationHash c) (key_address key)
    (paymasterAndData v c (signClaim v key c))
  = Some (mkValidationData false (validUntil c) (validAfter c)).
Proof. intros Hfit. rewrite verify_signed by exact Hfit. by rewrite bool_decide_eq_true_2. Qed.

(** A signature by a key other than the paymaster's signer is
    caught: for the same claim the contract still decodes the data, but
    returns the window with [sigFailed = true]. *)
Lemma verify_other_signer v key signer c :
  claim_fits v c -> key_address key <> signer ->
  verifyPaymasterData v (paymaster c) (operationHash c) signer
    (paymasterAndData v c (signClaim v key c))
  = Some (mkValidationData true (validUntil c) (validAfter c)).
Proof. intros Hfit Hne. rewrite verify_signed by exact Hfit. by rewrite bool_decide_eq_false_2. Qed.
End Verification.

(** ** A concrete signer for examples

    Not ECDSA: the signature is the digest and the key side by side, and
    recovery reads the key back.  It meets the [Signer] laws, so the
    class is consistent; no theorem depends on it. *)

Definition example_ecsign (key digest : Z) : bytes :=
  be_bytes 32 digest ++ be_bytes 32 key ++ [Byte.x1b].

Definition example_key_address (key : Z) : Z := (key mod 2 ^ 256) mod 2 ^ 160.

Definition example_ecrecover (digest : Z) (signature : bytes) : option Z :=
  if bool_decide (length signature = 65%nat) && bool_decide (be_value (take 32 signature) = digest mod 2 ^ 256)
  then Some (be_value (take 32 (drop 32 signature)) mod 2 ^ 160) else None.

Lemma example_ecrecover_ecsign key digest :
  example_ecrecover digest (example_ecsign key digest) = Some (example_key_address key).
Proof.
  unfold example_ecrecover, example_ecsign, example_key_address.
  rewrite !length_app, !length_be_bytes.
  rewrite take_app_length' by (symmetry; apply length_be_bytes).
  rewrite drop_app_length' by (symmetry; apply length_be_bytes).
  rewrite take_app_length' by (symmetry; apply length_be_bytes).
  rewrite !be_value_bytes, !bool_decide_eq_true_2; reflexivity.
Qed.

Lemma example_length_ecsign key digest : length (example_ecsign key digest) = 65%nat.
Proof. unfold example_ecsign. rewrite !length_app, !length_be_bytes. done. Qed.

Definition example_signer : Signer := {|
  ecsign := example_ecsign;
  ecrecover := example_ecrecover;
  key_address := example_key_address;
  ecrecover_ecsign := example_ecrecover_ecsign;
  length_ecsign := example_length_ecsign
|}.
