(* ===== verification/Relay.v ===== *)
(** * RPC Relay: the JSON-RPC handler on [POST /]

    [createRpcHandler({bundler, publicClient, paymasterSigner})] of
    [./relay] (index.ts 79-84) is not under [src/]; this file models it
    from the specification's RPC Relay (sections 4.3, 6 and 7) as a pure
    function of the request body, the request time and the relay's
    captured state ([Relay]: the cached paymaster address table and the
    signing key, when available).  Its per-request state machine
    Received -> Parsed -> Validated -> Resolved -> Signed -> Responded,
    with a terminal Rejected, is the type [RequestState] (constructors
    [ReqReceived] ... [ReqRejected]) and the executable transition
    [rpc_step]; [handleRpc] runs it for [rpc_fuel] = 5 transitions, which
    always reach a terminal state.  A rejection is a JSON-RPC error
    response (-32700, -32600, -32601, -32602, -32603) that echoes the
    request's id when it is recoverable.  The method name selects both
    the request kind ([pm_getPaymasterStubData] or [pm_getPaymasterData])
    and the entry-point version (suffix [_v1], [_v2], [_v3] for 0.6, 0.7,
    0.8), never the operation's shape. *)

From S2P Require Import Prelude Bytes Registry Signature.
From Stdlib Require Import Ascii.

Open Scope Z_scope.

Inductive Json :=
| JNull
| JBool (b : bool)
| JNum (n : Z)
| JStr (s : string)
| JArr (xs : list Json)
| JObj (fields : list (string * Json)).

(** [obj[key]] after [JSON.parse]: with duplicate keys the last one wins. *)
Definition json_field (key : string) (j : Json) : option Json :=
  match j with
  | JObj fields => snd <$> List.find (fun kv => String.eqb kv.1 key) (rev fields)
  | _ => None
  end.

(** ** Errors and responses *)

Inductive RpcError :=
| ParseError
| InvalidRequest
| MethodNotFound (method : string)
| InvalidParams (field : string)
| InternalError.

Definition error_code (e : RpcError) : Z :=
  match e with
  | ParseError => -32700
  | InvalidRequest => -32600
  | MethodNotFound _ => -32601
  | InvalidParams _ => -32602
  | InternalError => -32603
  end.

Definition error_message (e : RpcError) : string :=
  match e with
  | ParseError => "Parse error"
  | InvalidRequest => "Invalid Request"
  | MethodNotFound m => "Method not found: " +:+ m
  | InvalidParams field => "Invalid params: " +:+ field
  | InternalError => "Internal error"
  end.

Definition error_response (id : Json) (e : RpcError) : Json :=
  JObj [("jsonrpc", JStr "2.0"); ("id", id);
        ("error", JObj [("code", JNum (error_code e)); ("message", JStr (error_message e))])].

Definition success_response (id : Json) (result : Json) : Json :=
  JObj [("jsonrpc", JStr "2.0"); ("id", id); ("result", result)].

(** ** Envelope and method *)

Definition valid_id (j : Json) : bool :=
  match j with JNull | JNum _ | JStr _ => true | _ => false end.

(** The id to echo in an error: the request's, when it has a valid one. *)
Definition recover_id (j : Json) : Json :=
  match json_field "id" j with Some id => if valid_id id then id else JNull | None => JNull end.

(** ReqReceived -> ReqParsed: [{jsonrpc: "2.0", id, method, params}]. *)
Definition parse_envelope (j : Json) : option (Json * string * list Json) :=
  match json_field "jsonrpc" j, json_field "id" j, json_field "method" j, json_field "params" j with
  | Some (JStr v), Some id, Some (JStr m), Some (JArr params) =>
      if String.eqb v "2.0" && valid_id id then Some (id, m, params) else None
  | _, _, _, _ => None
  end.

Inductive RequestKind := StubData | FinalData.

Fixpoint strip_prefix (p s : list ascii) : option (list ascii) :=
  match p, s with
  | [], _ => Some s
  | c :: p', d :: s' => if Ascii.eqb c d then strip_prefix p' s' else None
  | _ :: _, [] => None
  end.

Definition method_base (k : RequestKind) : string :=
  match k with StubData => "pm_getPaymasterStubData" | FinalData => "pm_getPaymasterData" end.

(** The request kind and the rest of the name after its base. *)
Definition parse_method (m : string) : option (RequestKind * string) :=
  let cs := String.list_ascii_of_string m in
  match strip_prefix (String.list_ascii_of_string (method_base StubData)) cs with
  | Some rest => Some (StubData, String.string_of_list_ascii rest)
  | None =>
      match strip_prefix (String.list_ascii_of_string (method_base FinalData)) cs with
      | Some rest => Some (FinalData, String.string_of_list_ascii rest)
      | None => None
      end
  end.

Definition version_suffix (v : EntryPointVersion) : string :=
  match v with V06 => "_v1" | V07 => "_v2" | V08 => "_v3" end.

Definition version_of_suffix (s : string) : option EntryPointVersion :=
  List.find (fun v => String.eqb (version_suffix v) s) all_versions.

(** ** Parameters: the user operation and the entry point *)

(** A JSON-RPC quantity: a non-negative number, or [0x] and hex digits. *)
Definition parse_quantity (s : string) : option Z :=
  match String.list_ascii_of_string s with
  | c0 :: c1 :: (_ :: _) as cs =>
      if (Ascii.eqb c0 "0" && Ascii.eqb c1 "x")%bool
      then option_map (fun ds => le_value 16 (rev ds)) (hex_vals cs) else None
  | _ => None
  end.

Definition json_quantity (j : Json) : option Z :=
  match j with
  | JNum n => if 0 <=? n then Some n else None
  | JStr s => parse_quantity s
  | _ => None
  end.

Definition json_address (j : Json) : option Z :=
  match j with JStr s => parse_address s | _ => None end.

Definition json_bytes (j : Json) : option bytes :=
  match j with JStr s => parse_hex_bytes s | _ => None end.

Record UserOperation := mkUserOp {
  sender : Z;
  nonce : Z;
  callData : bytes;
  callGasLimit : Z;
  verificationGasLimit : Z;
  preVerificationGas : Z;
  maxFeePerGas : Z;
  maxPriorityFeePerGas : Z
}.

(** A required field, parsed; its name is the error when it is absent or
    malformed. *)
Definition field {A} (name : string) (parse : Json -> option A) (j : Json) : string + A :=
  or_error name (json_field name j ≫= parse).

Definition parse_user_op (j : Json) : string + UserOperation :=
  s <-? field "sender" json_address j ;;
  n <-? field "nonce" json_quantity j ;;
  d <-? field "callData" json_bytes j ;;
  cg <-? field "callGasLimit" json_quantity j ;;
  vg <-? field "verificationGasLimit" json_quantity j ;;
  pg <-? field "preVerificationGas" json_quantity j ;;
  mf <-? field "maxFeePerGas" json_quantity j ;;
  mp <-? field "maxPriorityFeePerGas" json_quantity j ;;
  inr (mkUserOp s n d cg vg pg mf mp).

(** ReqParsed -> ReqValidated, for the params [[userOperation, entryPoint, ...]]:
    the entry point must be the one of the version the method names. *)
Definition parse_params (v : EntryPointVersion) (params : list Json) : string + UserOperation :=
  match params with
  | op :: ep :: _ =>
      uo <-? parse_user_op op ;;
      a <-? or_error "entryPoint" (json_address ep) ;;
      if bool_decide (a = entry_point_address v) then inr uo else inl "entryPoint"
  | [_] => inl "entryPoint"
  | [] => inl "userOperation"
  end.

(** ** Resolving and signing *)

(** What [createRpcHandler] captures: the configuration, the paymaster
    address table computed at startup, and the signing key of
    [paymasterSigner] ([None] when the key is unavailable). *)
Record Relay := mkRelay {
  relay_config : RelayConfig;
  relay_addresses : EntryPointVersion -> Z;
  relay_key : option Z
}.

(** [createRpcHandler({bundler, publicClient, paymasterSigner})]
    (index.ts 79-83): the state the handler captures from [main].  As the
    specification's relay does, it resolves each version's paymaster with
    the registry from the signer's address, and signs with the signer's
    key; the two clients serve calls the model does not make. *)
Definition createRpcHandler `{Deployment} (cfg : RelayConfig) (paymasterSigner signer_key : Z) : Relay :=
  mkRelay cfg (fun v => getSingletonPaymasterAddress v paymasterSigner) (Some signer_key).

Section Sponsor.
Context `{Deployment} `{Signer}.

Definition pack_user_op (op : UserOperation) : bytes :=
  be_bytes 32 (sender op) ++ be_bytes 32 (nonce op) ++ be_bytes 32 (keccak256 (callData op))
  ++ be_bytes 32 (callGasLimit op) ++ be_bytes 32 (verificationGasLimit op)
  ++ be_bytes 32 (preVerificationGas op) ++ be_bytes 32 (maxFeePerGas op)
  ++ be_bytes 32 (maxPriorityFeePerGas op).

(** The operation hash the entry point of [v] computes:
    [keccak256(abi.encode(keccak256(pack(op)), entryPoint, chainId))]. *)
Definition userOpHash (v : EntryPointVersion) (chain : Z) (op : UserOperation) : Z :=
  keccak256 (be_bytes 32 (keccak256 (pack_user_op op)) ++ be_bytes 32 (entry_point_address v)
             ++ be_bytes 32 chain).

Definition version_gas (v : EntryPointVersion) (x : Z) : Z :=
  match v with V06 => 0 | V07 | V08 => x end.

(** ReqResolved -> ReqSigned: the claim for [op] and the resolved paymaster
    [pm] at time [now], sponsoring all gas. *)
Definition build_claim (cfg : RelayConfig) (v : EntryPointVersion) (now : Z) (op : UserOperation)
    (pm : Z) : SponsorshipClaim :=
  let '(va, vu) := validity_window cfg now in
  mkClaim pm va vu (userOpHash v (chain_id cfg) op) SponsorAll
    (version_gas v (default_verification_gas cfg)) (version_gas v (default_postop_gas cfg)).

(** A stub carries a zero signature of the real length. *)
Definition dummy_signature : bytes := repeat Byte.x00 65.

Definition gas_fields (v : EntryPointVersion) (c : SponsorshipClaim) : list (string * Json) :=
  match v with
  | V06 => []
  | V07 | V08 => [("paymasterVerificationGasLimit", JNum (paymasterVerificationGasLimit c));
                  ("paymasterPostOpGasLimit", JNum (paymasterPostOpGasLimit c))]
  end.

Definition result_json (v : EntryPointVersion) (c : SponsorshipClaim) (signature : bytes) : Json :=
  JObj ([("paymaster", JStr (address_hex (paymaster c)));
         ("paymasterData", JStr (bytes_hex (data_fields c ++ signature)));
         ("validAfter", JNum (validAfter c)); ("validUntil", JNum (validUntil c))]
        ++ gas_fields v c).

(** The stub's placeholder, or the signature by the configured key; no
    signature when the key is unavailable ([SigningError]). *)
Definition signature_of (r : Relay) (k : RequestKind) (v : EntryPointVersion) (c : SponsorshipClaim)
    : option bytes :=
  match k with
  | StubData => Some dummy_signature
  | FinalData => (fun key => signClaim v key c) <$> relay_key r
  end.

(** ** The per-request state machine (section 4.3) *)

Inductive RequestState :=
| ReqReceived (body : option Json)
| ReqParsed (id : Json) (method : string) (params : list Json)
| ReqValidated (id : Json) (k : RequestKind) (v : EntryPointVersion) (op : UserOperation)
| ReqResolved (id : Json) (k : RequestKind) (v : EntryPointVersion) (op : UserOperation) (pm : Z)
| ReqSigned (id : Json) (v : EntryPointVersion) (c : SponsorshipClaim) (signature : bytes)
| ReqResponded (response : Json)
| ReqRejected (id : Json) (e : RpcError).

Definition terminal (s : RequestState) : bool :=
  match s with ReqResponded _ | ReqRejected _ _ => true | _ => false end.

(** One transition; the terminal states do not move. *)
Definition rpc_step (r : Relay) (now : Z) (s : RequestState) : RequestState :=
  match s with
  | ReqReceived None => ReqRejected JNull ParseError
  | ReqReceived (Some j) =>
      match parse_envelope j with
      | None => ReqRejected (recover_id j) InvalidRequest
      | Some (id, m, params) => ReqParsed id m params
      end
  | ReqParsed id m params =>
      match parse_method m with
      | None => ReqRejected id (MethodNotFound m)
      | Some (k, suffix) =>
          match version_of_suffix suffix with
          | None => ReqRejected id (InvalidParams "method")
          | Some v =>
              match parse_params v params with
              | inl fld => ReqRejected id (InvalidParams fld)
              | inr op => ReqValidated id k v op
              end
          end
      end
  | ReqValidated id k v op => ReqResolved id k v op (relay_addresses r v)
  | ReqResolved id k v op pm =>
      let c := build_claim (relay_config r) v now op pm in
      match signature_of r k v c with
      | Some signature => ReqSigned id v c signature
      | None => ReqRejected id InternalError
      end
  | ReqSigned id v c signature => ReqResponded (success_response id (result_json v c signature))
  | ReqResponded _ | ReqRejected _ _ => s
  end.

Fixpoint rpc_run (r : Relay) (now : Z) (fuel : nat) (s : RequestState) : RequestState :=
  match fuel with
  | O => s
  | S fuel' => rpc_run r now fuel' (rpc_step r now s)
  end.

Definition response_of (s : RequestState) : Json :=
  match s with
  | ReqResponded j => j
  | ReqRejected id e => error_response id e
  | _ => error_response JNull InternalError
  end.

(** Five transitions take any request from [ReqReceived] to a terminal
    state ([rpc_run_terminates]). *)
Definition rpc_fuel : nat := 5.

(** The handler: the state machine run from the request body. *)
Definition handleRpc (r : Relay) (now : Z) (body : option Json) : Json :=
  response_of (rpc_run r now rpc_fuel (ReqReceived body)).
End Sponsor.

(** ** The state machine: termination, ids, rejections *)

Section StateMachine.
Context `{Deployment} `{Signer}.
Variables (r : Relay) (now : Z).

(** The number of transitions left before a terminal state. *)
Definition rank (s : RequestState) : nat :=
  match s with
  | ReqReceived _ => 5 | ReqParsed _ _ _ => 4 | ReqValidated _ _ _ _ => 3
  | ReqResolved _ _ _ _ _ => 2 | ReqSigned _ _ _ _ => 1 | ReqResponded _ | ReqRejected _ _ => 0
  end.

Lemma rpc_step_rank s : terminal s = false -> (rank (rpc_step r now s) < rank s)%nat.
Proof. destruct s; simpl; intros; repeat case_match; simpl; lia. Qed.

Lemma rpc_run_S n s : rpc_run r now (S n) s = rpc_run r now n (rpc_step r now s).
Proof. done. Qed.

Lemma rpc_step_terminal s : terminal s = true -> rpc_step r now s = s.
Proof. by destruct s. Qed.

Lemma rank_terminal s : rank s = 0%nat -> terminal s = true.
Proof. by destruct s. Qed.

Lemma rpc_run_terminates n s : (rank s <= n)%nat -> terminal (rpc_run r now n s) = true.
Proof.
  revert s. induction n as [|n IH]; intros s Hrank; simpl.
  - apply rank_terminal. lia.
  - destruct (terminal s) eqn:Ht.
    + rewrite rpc_step_terminal by done. apply IH. destruct s; simpl in *; done || lia.
    + apply IH. pose proof (rpc_step_rank s Ht). lia.
Qed.

(** C14. Termination: from any request body, the five transitions of
    [rpc_fuel] reach [ReqResponded] or [ReqRejected]; the handler never answers
    from an unfinished state. *)
Theorem rpc_run_reaches_terminal body : terminal (rpc_run r now rpc_fuel (ReqReceived body)) = true.
Proof. apply rpc_run_terminates. done. Qed.

(** The request id every state after parsing carries. *)
Definition carries_id (id : Json) (s : RequestState) : Prop :=
  match s with
  | ReqReceived _ => False
  | ReqParsed id' _ _ | ReqValidated id' _ _ _ | ReqResolved id' _ _ _ _ | ReqSigned id' _ _ _ | ReqRejected id' _ => id' = id
  | ReqResponded j => json_field "id" j = Some id
  end.

Lemma json_field_id_success id result : json_field "id" (success_response id result) = Some id.
Proof. reflexivity. Qed.

Lemma json_field_id_error id e : json_field "id" (error_response id e) = Some id.
Proof. reflexivity. Qed.

Lemma rpc_step_carries_id id s : carries_id id s -> carries_id id (rpc_step r now s).
Proof.
  destruct s; simpl; try done; intros ->; repeat case_match; done.
Qed.

Lemma rpc_run_carries_id id n s : carries_id id s -> carries_id id (rpc_run r now n s).
Proof. revert s; induction n; intros s Hs; simpl; [done|]. by apply IHn, rpc_step_carries_id. Qed.

Lemma response_of_carries_id id s :
  terminal s = true -> carries_id id s -> json_field "id" (response_of s) = Some id.
Proof. destruct s; try discriminate; intros _ Hid; simpl in Hid |- *; subst; done. Qed.

(** C15. Once the envelope parses, the response echoes the request's id,
    on every path: success, unknown method, invalid params, internal error. *)
Theorem handleRpc_echoes_id j id m params :
  parse_envelope j = Some (id, m, params) ->
  json_field "id" (handleRpc r now (Some j)) = Some id.
Proof.
  intros Henv. unfold handleRpc, rpc_fuel. rewrite rpc_run_S. simpl rpc_step. rewrite Henv.
  apply response_of_carries_id; [by apply rpc_run_terminates|by apply rpc_run_carries_id].
Qed.

(** C16. A request is rejected only while it is received (parse error,
    invalid request), while its parsed method and params are validated
    (method not found, invalid params), or when a final-data request is
    resolved and no signing key is available (internal error). *)
Theorem rpc_step_rejected s id e :
  terminal s = false -> rpc_step r now s = ReqRejected id e ->
  (exists body, s = ReqReceived body) \/
  (exists m params, s = ReqParsed id m params) \/
  (exists v op pm, s = ReqResolved id FinalData v op pm /\ relay_key r = None /\ e = InternalError).
Proof.
  destruct s as [body|id' m params|id' k v op|id' k v op pm|id' v c sig|j|id' e']; simpl;
    intros Ht Hstep; try discriminate; [by left; eauto| |].
  - right; left. repeat case_match; simplify_eq; eauto.
  - right; right. unfold signature_of in Hstep. destruct k; [discriminate|].
    destruct (relay_key r) eqn:Hk; simpl in Hstep; simplify_eq. by do 3 eexists.
Qed.
Lemma rpc_run_terminal n s : terminal s = true -> rpc_run r now n s = s.
Proof. intros Ht. induction n; simpl; [done|]. by rewrite rpc_step_terminal. Qed.

(** The transitions of an accepted request, one lemma per stage. *)
Lemma step_received j id m params :
  parse_envelope j = Some (id, m, params) -> rpc_step r now (ReqReceived (Some j)) = ReqParsed id m params.
Proof. intros Henv. simpl. by rewrite Henv. Qed.

Lemma step_parsed id m params k suffix v op :
  parse_method m = Some (k, suffix) -> version_of_suffix suffix = Some v ->
  parse_params v params = inr op -> rpc_step r now (ReqParsed id m params) = ReqValidated id k v op.
Proof. intros Hm Hv Hp. simpl. by rewrite Hm, Hv, Hp. Qed.

Lemma step_resolved id k v op pm signature :
  signature_of r k v (build_claim (relay_config r) v now op pm) = Some signature ->
  rpc_step r now (ReqResolved id k v op pm) =
    ReqSigned id v (build_claim (relay_config r) v now op pm) signature.
Proof. intros Hs. simpl. by rewrite Hs. Qed.

(** Once parsed, the response is the one of the parsed state after four
    more transitions. *)
Lemma handleRpc_parsed j id m params :
  parse_envelope j = Some (id, m, params) ->
  handleRpc r now (Some j) = response_of (rpc_run r now 4 (ReqParsed id m params)).
Proof. intros Henv. unfold handleRpc, rpc_fuel. rewrite rpc_run_S, (step_received _ _ _ _ Henv). done. Qed.

(** A request rejected while its method and params are validated. *)
Lemma handleRpc_rejected_parsed j id m params e :
  parse_envelope j = Some (id, m, params) ->
  rpc_step r now (ReqParsed id m params) = ReqRejected id e ->
  handleRpc r now (Some j) = error_response id e.
Proof.
  intros Henv Hstep. rewrite (handleRpc_parsed _ _ _ _ Henv), rpc_run_S, Hstep.
  by rewrite rpc_run_terminal.
Qed.
End StateMachine.

(** ** Witnesses *)

Section Witnesses.
#[local] Existing Instance example_deployment.
#[local] Existing Instance example_signer.

Definition example_config : RelayConfig := mkRelayConfig 3600 60 100000 50000 31337.

Definition example_relay (key : option Z) : Relay :=
  mkRelay example_config
    (fun v => getSingletonPaymasterAddress v 0x70997970C51812dc3A010C7d01b50e0d17dc79C8) key.

Definition example_envelope (m : string) : Json :=
  JObj [("jsonrpc", JStr "2.0"); ("id", JNum 7); ("method", JStr m); ("params", JArr [])].

Lemma handleRpc_echoes_id_witness :
  parse_envelope (example_envelope "pm_foo") = Some (JNum 7, "pm_foo", []) /\
  json_field "id" (handleRpc (example_relay None) 1700000000 (Some (example_envelope "pm_foo")))
    = Some (JNum 7).
Proof.
  assert (Henv : parse_envelope (example_envelope "pm_foo") = Some (JNum 7, "pm_foo", [])) by reflexivity.
  split; [exact Henv|]. exact (handleRpc_echoes_id _ _ _ _ _ _ Henv).
Defined.

Lemma rpc_step_rejected_witness :
  terminal (ReqParsed (JNum 7) "pm_foo" []) = false /\
  rpc_step (example_relay None) 1700000000 (ReqParsed (JNum 7) "pm_foo" [])
    = ReqRejected (JNum 7) (MethodNotFound "pm_foo") /\
  ((exists body, ReqParsed (JNum 7) "pm_foo" [] = ReqReceived body) \/
   (exists m params, ReqParsed (JNum 7) "pm_foo" [] = ReqParsed (JNum 7) m params) \/
   (exists v op pm, ReqParsed (JNum 7) "pm_foo" [] = ReqResolved (JNum 7) FinalData v op pm /\
                    relay_key (example_relay None) = None /\ MethodNotFound "pm_foo" = InternalError)).
Proof.
  assert (Ht : terminal (ReqParsed (JNum 7) "pm_foo" []) = false) by reflexivity.
  assert (Hs : rpc_step (example_relay None) 1700000000 (ReqParsed (JNum 7) "pm_foo" [])
               = ReqRejected (JNum 7) (MethodNotFound "pm_foo")) by reflexivity.
  split; [exact Ht|]. split; [exact Hs|]. exact (rpc_step_rejected _ _ _ _ _ Ht Hs).
Defined.
End Witnesses.
