(* ===== verification/RelayCorrect.v ===== *)
(** * Correctness of the RPC Relay on whole requests

    The properties of the specification's section 8 for the handler of
    [Relay]: the error code of each rejected request, the shape of a
    successful response, the round trip from the registry's address to the
    response's [paymaster] field, the validity window, and, end to end,
    that the [paymasterAndData] a bundler assembles from a final-data
    response verifies on chain.  The requests are built by [rpc_request]
    from a method name ([method_name]) and the JSON of a user operation
    ([op_json]); the bundler's assembly of [paymasterAndData] from the
    result fields is [assemble_paymasterAndData]. *)

From S2P Require Import Prelude Bytes Registry Signature Relay.
From Stdlib Require Import Ascii.

Open Scope Z_scope.

(** The big encoders stay folded while requests are evaluated. *)
#[local] Arguments address_hex : simpl never.
#[local] Arguments bytes_hex : simpl never.
#[local] Arguments parse_address : simpl never.
#[local] Arguments parse_hex_bytes : simpl never.

(** ** Requests and the bundler's side *)

Definition rpc_request (id : Json) (m : string) (params : list Json) : Json :=
  JObj [("jsonrpc", JStr "2.0"); ("id", id); ("method", JStr m); ("params", JArr params)].

Definition method_name (k : RequestKind) (v : EntryPointVersion) : string :=
  method_base k +:+ version_suffix v.

Definition op_json (op : UserOperation) : Json :=
  JObj [("sender", JStr (address_hex (sender op))); ("nonce", JNum (nonce op));
        ("callData", JStr (bytes_hex (callData op))); ("callGasLimit", JNum (callGasLimit op));
        ("verificationGasLimit", JNum (verificationGasLimit op));
        ("preVerificationGas", JNum (preVerificationGas op));
        ("maxFeePerGas", JNum (maxFeePerGas op));
        ("maxPriorityFeePerGas", JNum (maxPriorityFeePerGas op))].

(** The params of a request for version [v]: the operation and the entry
    point of [v]. *)
Definition request_params (v : EntryPointVersion) (op : UserOperation) : list Json :=
  [op_json op; JStr (address_hex (entry_point_address v))].

Definition op_wf (op : UserOperation) : Prop :=
  0 <= sender op < address_modulus /\ 0 <= nonce op /\ 0 <= callGasLimit op /\
  0 <= verificationGasLimit op /\ 0 <= preVerificationGas op /\ 0 <= maxFeePerGas op /\
  0 <= maxPriorityFeePerGas op.

(** A bundler builds [paymasterAndData] from the result: the paymaster,
    for 0.7 and 0.8 the two gas limits, then [paymasterData]. *)
Definition assemble_paymasterAndData (v : EntryPointVersion) (result : Json) : option bytes :=
  pm ← json_field "paymaster" result ≫= json_address;
  data ← json_field "paymasterData" result ≫= json_bytes;
  match v with
  | V06 => Some (be_bytes 20 pm ++ data)
  | V07 | V08 =>
      vg ← json_field "paymasterVerificationGasLimit" result ≫= json_quantity;
      pg ← json_field "paymasterPostOpGasLimit" result ≫= json_quantity;
      Some (be_bytes 20 pm ++ be_bytes 16 vg ++ be_bytes 16 pg ++ data)
  end.

(** ** Parsing what the builders produce *)

(** Evaluate field lookups and parsers on built JSON, leaving the hex
    encoders and their parsers folded. *)
Ltac eval_json :=
  lazy beta iota zeta delta [parse_user_op field json_field op_json rpc_request request_params
    sbind or_error String.eqb Ascii.eqb Bool.eqb rev app List.find fmap option_fmap option_map
    mbind option_bind fst snd andb json_quantity json_address json_bytes].

Lemma leb_0_true x : 0 <= x -> (0 <=? x) = true.
Proof. apply Z.leb_le. Qed.

Lemma parse_envelope_request id m params :
  valid_id id = true -> parse_envelope (rpc_request id m params) = Some (id, m, params).
Proof. intros Hid. unfold parse_envelope. simpl. by rewrite Hid. Qed.

Lemma parse_method_name k v : parse_method (method_name k v) = Some (k, version_suffix v).
Proof. destruct k, v; reflexivity. Qed.

Lemma version_of_suffix_name v : version_of_suffix (version_suffix v) = Some v.
Proof. by destruct v. Qed.

Lemma json_address_hex a : 0 <= a < address_modulus -> json_address (JStr (address_hex a)) = Some a.
Proof. intros Ha. simpl. rewrite parse_address_hex, Z.mod_small by exact Ha. done. Qed.

Lemma json_bytes_hex bs : json_bytes (JStr (bytes_hex bs)) = Some bs.
Proof. apply parse_hex_bytes_hex. Qed.

Lemma json_quantity_num n : 0 <= n -> json_quantity (JNum n) = Some n.
Proof. intros Hn. simpl. by rewrite (proj2 (Z.leb_le 0 n) Hn). Qed.

Lemma entry_point_address_bound v : 0 <= entry_point_address v < address_modulus.
Proof. unfold address_modulus. destruct v; simpl; lia. Qed.

Lemma parse_user_op_json op : op_wf op -> parse_user_op (op_json op) = inr op.
Proof.
  intros (Hs & Hn & Hc & Hv & Hp & Hm & Hq). eval_json.
  rewrite parse_address_hex, Z.mod_small, parse_hex_bytes_hex by exact Hs.
  rewrite !leb_0_true by assumption. by destruct op.
Qed.

Lemma parse_params_request v op : op_wf op -> parse_params v (request_params v op) = inr op.
Proof.
  intros Hop. unfold request_params, parse_params. rewrite parse_user_op_json by exact Hop.
  cbn [sbind or_error]. rewrite json_address_hex by apply entry_point_address_bound.
  cbn [sbind or_error]. by rewrite bool_decide_eq_true_2.
Qed.

(** ** ReqRejected requests *)

(** A well-formed request reaches the signing stage: it is answered
    with the success for the claim built at [now] when [signature_of]
    yields a signature, and with -32603 otherwise. *)
Lemma handleRpc_request `{Deployment} `{Signer} r now id k v op :
  valid_id id = true -> op_wf op ->
  handleRpc r now (Some (rpc_request id (method_name k v) (request_params v op))) =
    match signature_of r k v (build_claim (relay_config r) v now op (relay_addresses r v)) with
    | Some signature =>
        success_response id (result_json v (build_claim (relay_config r) v now op (relay_addresses r v)) signature)
    | None => error_response id InternalError
    end.
Proof.
  intros Hid Hop. rewrite (handleRpc_parsed _ _ _ _ _ _ (parse_envelope_request _ _ _ Hid)).
  rewrite rpc_run_S, (step_parsed _ _ _ _ _ _ _ _ _ (parse_method_name _ _) (version_of_suffix_name _)
                         (parse_params_request _ _ Hop)).
  rewrite !rpc_run_S. cbn [rpc_step]. by destruct (signature_of _ _ _ _).
Qed.

Section Errors.
Context `{Deployment} `{Signer}.
Variables (r : Relay) (now : Z).

(** C17. A well-formed envelope whose method is neither
    [pm_getPaymasterStubData...] nor [pm_getPaymasterData...] is answered
    with code -32601 and the request's id. *)
Theorem handleRpc_method_not_found id m params :
  valid_id id = true -> parse_method m = None ->
  handleRpc r now (Some (rpc_request id m params)) = error_response id (MethodNotFound m).
Proof.
  intros Hid Hm. apply handleRpc_rejected_parsed with m params; [by apply parse_envelope_request|].
  simpl. by rewrite Hm.
Qed.

(** C18. A known method with an unsupported or garbled version suffix is
    answered with code -32602 and a message naming the [method] field. *)
Theorem handleRpc_bad_version id m params k suffix :
  valid_id id = true -> parse_method m = Some (k, suffix) -> version_of_suffix suffix = None ->
  handleRpc r now (Some (rpc_request id m params)) = error_response id (InvalidParams "method").
Proof.
  intros Hid Hm Hv. apply handleRpc_rejected_parsed with m params; [by apply parse_envelope_request|].
  simpl. by rewrite Hm, Hv.
Qed.

(** C19. Params that do not parse for the method's version (a missing
    operation, a malformed or missing field, another version's entry
    point) are answered with -32602 naming the offending field. *)
Theorem handleRpc_invalid_params id k v params fld :
  valid_id id = true -> parse_params v params = inl fld ->
  handleRpc r now (Some (rpc_request id (method_name k v) params)) = error_response id (InvalidParams fld).
Proof.
  intros Hid Hp. apply handleRpc_rejected_parsed with (method_name k v) params;
    [by apply parse_envelope_request|].
  simpl. by rewrite parse_method_name, version_of_suffix_name, Hp.
Qed.

(** C20. Without a signing key, a final-data request that passed
    validation is answered with -32603 and its id; the service answers
    and goes on, it does not crash. *)
Theorem handleRpc_no_key id v op :
  valid_id id = true -> op_wf op -> relay_key r = None ->
  handleRpc r now (Some (rpc_request id (method_name FinalData v) (request_params v op)))
  = error_response id InternalError.
Proof.
  intros Hid Hop Hk. rewrite handleRpc_request by done. unfold signature_of. by rewrite Hk.
Qed.
End Errors.

(** ** Accepted requests *)

(** The configuration's window and gas limits fit their on-chain widths. *)
Definition window_ok (cfg : RelayConfig) (now : Z) : Prop :=
  0 <= clock_skew cfg /\ 0 < sponsorship_ttl cfg /\
  0 <= now - clock_skew cfg /\ now + sponsorship_ttl cfg < 2 ^ 48.

Definition gas_ok (cfg : RelayConfig) : Prop :=
  0 <= default_verification_gas cfg < 2 ^ 128 /\ 0 <= default_postop_gas cfg < 2 ^ 128.

Section Accepted.
Context `{Deployment} `{Signer}.

Lemma build_claim_fits cfg v now op pm :
  0 <= pm < address_modulus -> window_ok cfg now -> gas_ok cfg ->
  claim_fits v (build_claim cfg v now op pm).
Proof.
  unfold address_modulus, window_ok, gas_ok, claim_fits, build_claim, validity_window.
  intros Hpm Hw Hg. destruct v; simpl; repeat split; try lia; discriminate.
Qed.

Lemma assemble_result_json v c signature :
  claim_fits v c ->
  assemble_paymasterAndData v (result_json v c signature) = Some (paymasterAndData v c signature).
Proof.
  intros (Hp & Ha & Hu & Hg & Ho & H06).
  unfold assemble_paymasterAndData, result_json, paymasterAndData, paymaster_fields.
  destruct v; eval_json; unfold gas_fields; eval_json;
    rewrite parse_address_hex, Z.mod_small, parse_hex_bytes_hex by (unfold address_modulus; lia);
    cbn [mbind option_bind]; rewrite ?leb_0_true by lia; cbn [mbind option_bind];
    rewrite <- ?app_assoc; done.
Qed.

(** C13. Functional behaviour of an accepted request: a well-formed
    request for version [v] is answered with a success envelope echoing
    its id, whose result carries the resolved paymaster, the claim built
    at [now] and the signature of the request's kind (the zero stub
    signature, or the key's signature over the claim). *)
Theorem handleRpc_success r now id k v op signature :
  valid_id id = true -> op_wf op ->
  signature_of r k v (build_claim (relay_config r) v now op (relay_addresses r v)) = Some signature ->
  handleRpc r now (Some (rpc_request id (method_name k v) (request_params v op)))
  = success_response id (result_json v (build_claim (relay_config r) v now op (relay_addresses r v)) signature).
Proof. intros Hid Hop Hsig. by rewrite handleRpc_request, Hsig. Qed.

(** C12. End to end: with the signing key available and the window and
    gas limits within their widths, a final-data request for version [v]
    succeeds, and the [paymasterAndData] a bundler assembles from the
    result verifies at the paymaster the registry resolved, for the
    operation hash of [v]'s entry point: the signer is recovered and the
    entry point will accept it exactly from [now - skew] to [now + ttl]. *)
Theorem relay_final_verifies r now id v op key :
  valid_id id = true -> op_wf op -> relay_key r = Some key ->
  window_ok (relay_config r) now -> gas_ok (relay_config r) ->
  0 <= relay_addresses r v < address_modulus ->
  exists result bs d,
    handleRpc r now (Some (rpc_request id (method_name FinalData v) (request_params v op)))
      = success_response id result /\
    assemble_paymasterAndData v result = Some bs /\
    verifyPaymasterData v (relay_addresses r v) (userOpHash v (chain_id (relay_config r)) op)
      (key_address key) bs = Some d /\
    forall t, valid_at d t = (now - clock_skew (relay_config r) <=? t) &&
                             (t <=? now + sponsorship_ttl (relay_config r)).
Proof.
  intros Hid Hop Hk Hw Hg Hpm.
  set (c := build_claim (relay_config r) v now op (relay_addresses r v)).
  assert (Hfit : claim_fits v c) by (apply build_claim_fits; assumption).
  exists (result_json v c (signClaim v key c)), (paymasterAndData v c (signClaim v key c)),
    (mkValidationData false (validUntil c) (validAfter c)).
  split; [rewrite handleRpc_request by done; unfold signature_of; by rewrite Hk|].
  split; [by apply assemble_result_json|].
  split.
  { pose proof (verify_signed v key (key_address key) c Hfit) as Hv.
    rewrite bool_decide_eq_true_2 in Hv by done. exact Hv. }
  intros t. unfold valid_at, c, build_claim, validity_window. simpl. destruct Hw as (Hs & Ht & Hlo & Hhi).
  replace (now + sponsorship_ttl (relay_config r) =? 0) with false by (symmetry; apply Z.eqb_neq; lia).
  done.
Qed.
End Accepted.

Section RoundTrip.
Context `{Deployment} `{Signer}.

Lemma json_field_result_paymaster v c signature :
  json_field "paymaster" (result_json v c signature) = Some (JStr (address_hex (paymaster c))).
Proof. unfold result_json. destruct v; eval_json; done. Qed.

(** C21. Round trip through the registry: when the relay's table is the
    registry's for [owner], the [paymaster] field of a successful
    response parses to [addressFor(v, owner)], the address the registry
    computes from the owner's [Address] string. *)
Theorem relay_paymaster_is_registry owner r now id k v op signature :
  0 <= owner < address_modulus ->
  relay_addresses r = (fun v => getSingletonPaymasterAddress v owner) ->
  valid_id id = true -> op_wf op ->
  signature_of r k v (build_claim (relay_config r) v now op (relay_addresses r v)) = Some signature ->
  exists result pm,
    handleRpc r now (Some (rpc_request id (method_name k v) (request_params v op)))
      = success_response id result /\
    (json_field "paymaster" result ≫= json_address) = Some pm /\
    addressFor v (address_hex owner) = inr pm.
Proof.
  intros Howner Htable Hid Hop Hsig.
  eexists _, (getSingletonPaymasterAddress v owner).
  split; [rewrite handleRpc_request, Hsig by done; done|].
  rewrite json_field_result_paymaster. simpl (_ ≫= _). split.
  - rewrite Htable. apply json_address_hex, create2_address_bound.
  - unfold addressFor. by rewrite parse_address_hex, Z.mod_small.
Qed.

Lemma json_field_result_window v c signature :
  json_field "validAfter" (result_json v c signature) = Some (JNum (validAfter c)) /\
  json_field "validUntil" (result_json v c signature) = Some (JNum (validUntil c)).
Proof. unfold result_json. destruct v; eval_json; done. Qed.

(** C22. The window a successful response announces is
    [now - skew, now + ttl], computed at the request's time: its width is
    the TTL plus the clock-skew tolerance, and equals the TTL exactly
    only when the tolerance is zero. *)
Theorem relay_window r now id k v op signature :
  valid_id id = true -> op_wf op ->
  signature_of r k v (build_claim (relay_config r) v now op (relay_addresses r v)) = Some signature ->
  exists result,
    handleRpc r now (Some (rpc_request id (method_name k v) (request_params v op)))
      = success_response id result /\
    json_field "validAfter" result = Some (JNum (now - clock_skew (relay_config r))) /\
    json_field "validUntil" result = Some (JNum (now + sponsorship_ttl (relay_config r))) /\
    ((now + sponsorship_ttl (relay_config r)) - (now - clock_skew (relay_config r))
       = sponsorship_ttl (relay_config r) <-> clock_skew (relay_config r) = 0).
Proof.
  intros Hid Hop Hsig. eexists.
  split; [rewrite handleRpc_request, Hsig by done; done|].
  destruct (json_field_result_window v (build_claim (relay_config r) v now op (relay_addresses r v))
              signature) as [Ha Hu].
  rewrite Ha, Hu. unfold build_claim, validity_window. simpl. repeat split; lia.
Qed.
End RoundTrip.

(** ** Witnesses *)

Section Witnesses.
#[local] Existing Instance example_deployment.
#[local] Existing Instance example_signer.

Ltac vm_refl := vm_compute; reflexivity.

Definition example_op : UserOperation :=
  mkUserOp 0xaa 0 [Byte.x12; Byte.x34] 16 1 1 1 1.

Lemma example_op_wf : op_wf example_op.
Proof. unfold op_wf, example_op, address_modulus; simpl; lia. Qed.

Definition example_now : Z := 1700000000.

Lemma handleRpc_method_not_found_witness :
  valid_id (JNum 7) = true /\ parse_method "pm_foo" = None /\
  handleRpc (example_relay None) example_now (Some (rpc_request (JNum 7) "pm_foo" []))
    = error_response (JNum 7) (MethodNotFound "pm_foo").
Proof.
  split; [vm_refl|]. split; [vm_refl|].
  apply handleRpc_method_not_found; vm_refl.
Defined.

Lemma handleRpc_bad_version_witness :
  valid_id (JNum 7) = true /\
  parse_method "pm_getPaymasterData_v9" = Some (FinalData, "_v9") /\
  version_of_suffix "_v9" = None /\
  handleRpc (example_relay None) example_now (Some (rpc_request (JNum 7) "pm_getPaymasterData_v9" []))
    = error_response (JNum 7) (InvalidParams "method").
Proof.
  split; [vm_refl|]. split; [vm_refl|]. split; [vm_refl|].
  apply (handleRpc_bad_version _ _ _ _ _ FinalData "_v9"); vm_refl.
Defined.

Lemma handleRpc_invalid_params_witness :
  valid_id (JNum 7) = true /\ parse_params V07 [op_json example_op] = inl "entryPoint" /\
  handleRpc (example_relay None) example_now
    (Some (rpc_request (JNum 7) (method_name StubData V07) [op_json example_op]))
    = error_response (JNum 7) (InvalidParams "entryPoint").
Proof.
  assert (Hp : parse_params V07 [op_json example_op] = inl "entryPoint") by vm_refl.
  split; [vm_refl|]. split; [exact Hp|]. apply handleRpc_invalid_params; [vm_refl|exact Hp].
Defined.

Lemma handleRpc_no_key_witness :
  valid_id (JNum 7) = true /\ op_wf example_op /\ relay_key (example_relay None) = None /\
  handleRpc (example_relay None) example_now
    (Some (rpc_request (JNum 7) (method_name FinalData V08) (request_params V08 example_op)))
    = error_response (JNum 7) InternalError.
Proof.
  split; [vm_refl|]. split; [exact example_op_wf|]. split; [vm_refl|].
  apply handleRpc_no_key; [vm_refl|exact example_op_wf|vm_refl].
Defined.

Lemma handleRpc_success_witness :
  valid_id (JNum 7) = true /\ op_wf example_op /\
  signature_of (example_relay None) StubData V07
    (build_claim (relay_config (example_relay None)) V07 example_now example_op
       (relay_addresses (example_relay None) V07)) = Some dummy_signature /\
  handleRpc (example_relay None) example_now
    (Some (rpc_request (JNum 7) (method_name StubData V07) (request_params V07 example_op)))
  = success_response (JNum 7)
      (result_json V07 (build_claim (relay_config (example_relay None)) V07 example_now example_op
                          (relay_addresses (example_relay None) V07)) dummy_signature).
Proof.
  split; [vm_refl|]. split; [exact example_op_wf|]. split; [vm_refl|].
  apply handleRpc_success; [vm_refl|exact example_op_wf|vm_refl].
Defined.

Lemma example_window_ok : window_ok example_config example_now.
Proof. unfold window_ok, example_config, example_now; simpl; lia. Qed.

Lemma example_gas_ok : gas_ok example_config.
Proof. unfold gas_ok, example_config; simpl; lia. Qed.

Lemma example_relay_address_bound key v : 0 <= relay_addresses (example_relay key) v < address_modulus.
Proof.
  unfold example_relay. cbn [relay_addresses]. unfold getSingletonPaymasterAddress.
  apply create2_address_bound.
Qed.

Lemma relay_final_verifies_witness :
  valid_id (JNum 7) = true /\ op_wf example_op /\ relay_key (example_relay (Some 12345)) = Some 12345 /\
  window_ok (relay_config (example_relay (Some 12345))) example_now /\
  gas_ok (relay_config (example_relay (Some 12345))) /\
  0 <= relay_addresses (example_relay (Some 12345)) V06 < address_modulus /\
  exists result bs d,
    handleRpc (example_relay (Some 12345)) example_now
      (Some (rpc_request (JNum 7) (method_name FinalData V06) (request_params V06 example_op)))
      = success_response (JNum 7) result /\
    assemble_paymasterAndData V06 result = Some bs /\
    verifyPaymasterData V06 (relay_addresses (example_relay (Some 12345)) V06)
      (userOpHash V06 (chain_id (relay_config (example_relay (Some 12345)))) example_op)
      (key_address 12345) bs = Some d /\
    forall t, valid_at d t = (example_now - clock_skew (relay_config (example_relay (Some 12345))) <=? t) &&
                             (t <=? example_now + sponsorship_ttl (relay_config (example_relay (Some 12345)))).
Proof.
  split; [vm_refl|]. split; [exact example_op_wf|]. split; [vm_refl|].
  split; [exact example_window_ok|]. split; [exact example_gas_ok|].
  split; [apply example_relay_address_bound|].
  apply relay_final_verifies; first [vm_refl | exact example_op_wf | exact example_window_ok
                                   | exact example_gas_ok | apply example_relay_address_bound].
Defined.

Lemma relay_paymaster_is_registry_witness :
  0 <= 0x70997970C51812dc3A010C7d01b50e0d17dc79C8 < address_modulus /\
  exists result pm,
    handleRpc (example_relay None) example_now
      (Some (rpc_request (JNum 7) (method_name StubData V08) (request_params V08 example_op)))
      = success_response (JNum 7) result /\
    (json_field "paymaster" result ≫= json_address) = Some pm /\
    addressFor V08 (address_hex 0x70997970C51812dc3A010C7d01b50e0d17dc79C8) = inr pm.
Proof.
  assert (Ho : 0 <= 0x70997970C51812dc3A010C7d01b50e0d17dc79C8 < address_modulus)
    by (unfold address_modulus; lia).
  assert (Ht : relay_addresses (example_relay None)
               = fun v => getSingletonPaymasterAddress v 0x70997970C51812dc3A010C7d01b50e0d17dc79C8)
    by reflexivity.
  assert (Hid : valid_id (JNum 7) = true) by vm_refl.
  assert (Hsig : signature_of (example_relay None) StubData V08
                   (build_claim (relay_config (example_relay None)) V08 example_now example_op
                      (relay_addresses (example_relay None) V08)) = Some dummy_signature) by vm_refl.
  split; [exact Ho|].
  exact (relay_paymaster_is_registry _ (example_relay None) example_now (JNum 7) StubData V08
           example_op dummy_signature Ho Ht Hid example_op_wf Hsig).
Defined.

Lemma relay_window_witness :
  valid_id (JNum 7) = true /\ op_wf example_op /\
  exists result,
    handleRpc (example_relay None) example_now
      (Some (rpc_request (JNum 7) (method_name StubData V06) (request_params V06 example_op)))
      = success_response (JNum 7) result /\
    json_field "validAfter" result = Some (JNum (example_now - 60)) /\
    json_field "validUntil" result = Some (JNum (example_now + 3600)) /\
    ((example_now + 3600) - (example_now - 60) = 3600 <-> 60 = 0).
Proof.
  assert (Hid : valid_id (JNum 7) = true) by vm_refl.
  assert (Hsig : signature_of (example_relay None) StubData V06
                   (build_claim (relay_config (example_relay None)) V06 example_now example_op
                      (relay_addresses (example_relay None) V06)) = Some dummy_signature) by vm_refl.
  split; [exact Hid|]. split; [exact example_op_wf|].
  exact (relay_window (example_relay None) example_now (JNum 7) StubData V06 example_op
           dummy_signature Hid example_op_wf Hsig).
Defined.
End Witnesses.
