(* ===== verification/RelayInvariant.v ===== *)
(** * What every response of the relay is made of

    An invariant of the relay's state machine ([Relay.rpc_step]), proved
    step by step: a resolved request carries the paymaster the relay's
    table gives for its version, a signed one a claim built from that
    paymaster at the request time with a signature [signature_of]
    produced, and a response is the success made of such a claim.  Run
    for [rpc_fuel] transitions from any body, the machine therefore
    answers either a JSON-RPC error or such a success ([handleRpc_shape]);
    [Http] uses it to tie the paymaster a served response names to the
    contracts [main] deployed. *)

From S2P Require Import Prelude Bytes Registry Signature Relay.

Open Scope Z_scope.

Section Invariant.
Context `{Deployment} `{Signer}.
Variables (r : Relay) (now : Z).

(** The claim a success for version [v] and operation [op] carries. *)
Definition served_claim (v : EntryPointVersion) (op : UserOperation) : SponsorshipClaim :=
  build_claim (relay_config r) v now op (relay_addresses r v).

Definition stage_inv (s : RequestState) : Prop :=
  match s with
  | ReqReceived _ | ReqParsed _ _ _ | ReqValidated _ _ _ _ | ReqRejected _ _ => True
  | ReqResolved _ _ v _ pm => pm = relay_addresses r v
  | ReqSigned _ v c signature =>
      exists k op, c = served_claim v op /\ signature_of r k v c = Some signature
  | ReqResponded j =>
      exists id k v op signature,
        j = success_response id (result_json v (served_claim v op) signature) /\
        signature_of r k v (served_claim v op) = Some signature
  end.

Lemma rpc_step_inv s : stage_inv s -> stage_inv (rpc_step r now s).
Proof.
  destruct s as [body|id m params|id k v op|id k v op pm|id v c sg|j|id e]; cbn [rpc_step stage_inv];
    intros Hinv; repeat case_match; cbn [stage_inv]; try done.
  - subst pm. eauto.
  - destruct Hinv as (k & op & -> & Hs). eauto 10.
Qed.

Lemma rpc_run_inv n s : stage_inv s -> stage_inv (rpc_run r now n s).
Proof. revert s. induction n as [|n IH]; intros s Hs; [done|]. apply IH, rpc_step_inv, Hs. Qed.

(** Every answer of the handler is an error response or a success whose
    claim is built from the relay's own paymaster for the version, at
    the request time, with a signature [signature_of] produced. *)
Lemma handleRpc_shape body :
  (exists id e, handleRpc r now body = error_response id e) \/
  (exists id k v op signature,
     handleRpc r now body = success_response id (result_json v (served_claim v op) signature) /\
     signature_of r k v (served_claim v op) = Some signature).
Proof.
  unfold handleRpc.
  pose proof (rpc_run_terminates r now rpc_fuel (ReqReceived body) ltac:(done)) as Ht.
  pose proof (rpc_run_inv rpc_fuel (ReqReceived body) I) as Hinv.
  destruct (rpc_run r now rpc_fuel (ReqReceived body)); try discriminate; cbn in Hinv |- *.
  - right. destruct Hinv as (id & k & v & op & sg & -> & Hs). eauto 10.
  - left. eauto.
Qed.
End Invariant.
