(* ===== verification/Http.v ===== *)
(** * Serving HTTP requests once [main] has run

    After [app.listen] (index.ts 90) Fastify answers each request from the
    routes [main] registered (lines 79-88), with the headers of the CORS
    plugin (74-77).  [handle_http] models that dispatch for the Fastify
    state [App] of [World]: no answer when the server does not listen; the
    CORS preflight for [OPTIONS]; on [POST /] the JSON-RPC relay
    ([Relay.handleRpc]) in the state [createRpcHandler] built from the
    wallet [main] passed (lines 79-83); the fixed [{"message": "pong"}] on
    [GET /ping] (lines 86-88); Fastify's 404 otherwise.  The relay's
    configuration (TTL, clock skew, gas defaults, chain id) is a constant
    of [./relay], not under [src/], and is a parameter here.  Bodies are
    the JSON values Fastify's default parser hands to the handler; what
    Fastify does with other content types and malformed JSON is not
    modelled.

    The theorems compose [Server.main] with the relay: after a resolved
    [main], [/ping] answers pong, [POST /] answers exactly the relay's
    response for the wallet of Anvil account 1, and the paymaster any
    successful response names is one [main] deployed. *)

From S2P Require Import Prelude Bytes Registry World Bootstrap Server Signature Relay RelayCorrect RelayInvariant.

Open Scope Z_scope.

(** The body as the handler receives it: none, or the parsed JSON. *)
Inductive HttpBody := NoBody | JsonBody (j : Json).

Record HttpRequest := mkHttpRequest {
  req_method : HttpMethod;
  req_path : string;
  req_body : HttpBody
}.

Record HttpReply := mkHttpReply {
  status : Z;
  headers : list (string * string);
  reply_body : Json
}.

Definition method_string (m : HttpMethod) : string :=
  match m with GET => "GET" | POST => "POST" | OPTIONS => "OPTIONS" end.

(** The header the CORS plugin adds to every reply. *)
Definition cors_headers (a : App) : list (string * string) :=
  match app_cors a with
  | Some o => [("access-control-allow-origin", cors_origin o)]
  | None => []
  end.

(** Fastify's reply for a route it does not know. *)
Definition not_found (m : HttpMethod) (path : string) : Json :=
  JObj [("message", JStr ("Route " +:+ method_string m +:+ ":" +:+ path +:+ " not found"));
        ("error", JStr "Not Found"); ("statusCode", JNum 404)].

(** [reply.code(200).send({ message: "pong" })], line 87. *)
Definition pong : Json := JObj [("message", JStr "pong")].

Definition find_route (a : App) (m : HttpMethod) (path : string) : option Route :=
  List.find (fun rt => bool_decide (route_method rt = m) && String.eqb (route_path rt) path) (app_routes a).

Section Dispatch.
Context `{Deployment} `{Signer}.

(** One request to the server in state [a], at time [now], the relay
    configured by [cfg]. *)
Definition handle_http (cfg : RelayConfig) (now : Z) (a : App) (req : HttpRequest) : option HttpReply :=
  match app_listening a with
  | None => None
  | Some _ =>
      let hs := cors_headers a in
      match req_method req, app_cors a with
      | OPTIONS, Some o =>
          Some (mkHttpReply 204 (hs ++ [("access-control-allow-methods", "POST,GET,OPTIONS")]) JNull)
      | _, _ =>
          match find_route a (req_method req) (req_path req) with
          | None => Some (mkHttpReply 404 hs (not_found (req_method req) (req_path req)))
          | Some rt =>
              match route_handler rt, req_body req with
              | PingHandler, _ => Some (mkHttpReply 200 hs pong)
              | RpcHandler signer key, JsonBody j =>
                  Some (mkHttpReply 200 hs (handleRpc (createRpcHandler cfg signer key) now (Some j)))
              | RpcHandler signer key, NoBody =>
                  Some (mkHttpReply 200 hs (handleRpc (createRpcHandler cfg signer key) now None))
              end
          end
      end
  end.
End Dispatch.

(** ** The server [main] leaves *)

(** The relay [main] serves: the handler of the wallet of Anvil account 1. *)
Definition main_relay `{Deployment} (cfg : RelayConfig) : Relay :=
  createRpcHandler cfg (anvil_account 1) (anvil_key 1).

Section Served.
Context `{Deployment} `{Signer} `{Bootstrapper} `{Helpers}.
Variables (cfg : RelayConfig) (now : Z).

(** The reply to [POST /] with a JSON body, once [main] has resolved. *)
Lemma post_after_main w w' j :
  main w = Resolved tt w' ->
  handle_http cfg now (app w') (mkHttpRequest POST "/" (JsonBody j)) =
    Some (mkHttpReply 200 [("access-control-allow-origin", "*")] (handleRpc (main_relay cfg) now (Some j))).
Proof. intros Hrun. by rewrite (main_app _ _ Hrun). Qed.

(** C9. Liveness route: once [main] has resolved, [GET /ping] is
    answered with HTTP 200 and [{"message": "pong"}], whatever the body,
    with the CORS header. *)
Theorem ping_after_main w w' body :
  main w = Resolved tt w' ->
  handle_http cfg now (app w') (mkHttpRequest GET "/ping" body) =
    Some (mkHttpReply 200 [("access-control-allow-origin", "*")] pong).
Proof. intros Hrun. rewrite (main_app _ _ Hrun). by destruct body. Qed.

(** C8. Composition of [main] and the relay: after a resolved [main], a
    [POST /] whose body is JSON is answered with HTTP 200 and exactly the
    response of the relay [createRpcHandler] built from the wallet of
    Anvil account 1, its address and its key. *)
Theorem rpc_after_main w w' j :
  main w = Resolved tt w' ->
  handle_http cfg now (app w') (mkHttpRequest POST "/" (JsonBody j)) =
    Some (mkHttpReply 200 [("access-control-allow-origin", "*")]
            (handleRpc (createRpcHandler cfg (anvil_account 1) (anvil_key 1)) now (Some j))).
Proof. apply post_after_main. Qed.

(** C4. The server never sponsors through a paymaster that is not on
    chain: after a resolved [main], whatever JSON-RPC request [POST /]
    receives, if the reply is a success whose [paymaster] field parses to
    an address, that address carries code in the world [main] left. *)
Theorem served_paymaster_deployed w w' j reply result pm :
  main w = Resolved tt w' ->
  handle_http cfg now (app w') (mkHttpRequest POST "/" (JsonBody j)) = Some reply ->
  json_field "result" (reply_body reply) = Some result ->
  (json_field "paymaster" result ≫= json_address) = Some pm ->
  deployed w' pm = true.
Proof.
  intros Hrun Hreply Hres Hpm.
  rewrite (post_after_main _ _ _ Hrun) in Hreply. injection Hreply as <-. cbn [reply_body] in Hres.
  destruct (handleRpc_shape (main_relay cfg) now (Some j))
    as [(id & e & He)|(id & k & v & op & sg & Hs & _)]; rewrite ?He, ?Hs in Hres; [discriminate|].
  injection Hres as <-. rewrite json_field_result_paymaster in Hpm. cbn [mbind option_bind] in Hpm.
  assert (Hv : paymaster (served_claim (main_relay cfg) now v op) = getSingletonPaymasterAddress v (anvil_account 1))
    by reflexivity.
  rewrite Hv, json_address_hex in Hpm by apply create2_address_bound. injection Hpm as <-.
  exact (main_deploys _ _ Hrun v).
Qed.
End Served.

(** ** Witnesses *)

Section Witnesses.
#[local] Existing Instance example_deployment.
#[local] Existing Instance example_signer.
#[local] Existing Instance anvil_helpers.

Lemma ping_after_main_witness :
  main (example_world true ∅) = Resolved tt example_started /\
  handle_http example_config 0 (app example_started) (mkHttpRequest GET "/ping" NoBody) =
    Some (mkHttpReply 200 [("access-control-allow-origin", "*")] pong).
Proof.
  split; [exact example_main_resolves|].
  exact (ping_after_main example_config 0 _ _ NoBody example_main_resolves).
Defined.

Lemma rpc_after_main_witness :
  main (example_world true ∅) = Resolved tt example_started /\
  handle_http example_config 0 (app example_started) (mkHttpRequest POST "/" (JsonBody JNull)) =
    Some (mkHttpReply 200 [("access-control-allow-origin", "*")]
            (handleRpc (createRpcHandler example_config (anvil_account 1) (anvil_key 1)) 0 (Some JNull))).
Proof.
  split; [exact example_main_resolves|].
  exact (rpc_after_main example_config 0 _ _ JNull example_main_resolves).
Defined.

(** A stub request for entry point 0.7, the reply and its paymaster. *)
Definition example_request : HttpRequest :=
  mkHttpRequest POST "/" (JsonBody (rpc_request (JNum 7) (method_name StubData V07) (request_params V07 example_op))).

Definition example_reply : HttpReply :=
  default (mkHttpReply 0 [] JNull) (handle_http example_config example_now (app example_started) example_request).

Definition example_result : Json := default JNull (json_field "result" (reply_body example_reply)).

Definition example_paymaster : Z := default 0 (json_field "paymaster" example_result ≫= json_address).

Lemma served_paymaster_deployed_witness :
  main (example_world true ∅) = Resolved tt example_started /\
  handle_http example_config example_now (app example_started) example_request = Some example_reply /\
  json_field "result" (reply_body example_reply) = Some example_result /\
  (json_field "paymaster" example_result ≫= json_address) = Some example_paymaster /\
  deployed example_started example_paymaster = true.
Proof.
  assert (Hr : handle_http example_config example_now (app example_started) example_request = Some example_reply)
    by (vm_compute; reflexivity).
  assert (Hj : json_field "result" (reply_body example_reply) = Some example_result) by (vm_compute; reflexivity).
  assert (Hp : (json_field "paymaster" example_result ≫= json_address) = Some example_paymaster)
    by (vm_compute; reflexivity).
  split; [exact example_main_resolves|]. split; [exact Hr|]. split; [exact Hj|]. split; [exact Hp|].
  exact (served_paymaster_deployed example_config example_now _ _ _ _ _ _ example_main_resolves Hr Hj Hp).
Defined.
End Witnesses.
